(** * Attention-backend selection and the encode-only FlashAttention layer

    A shallow embedding of
      - [vllm/wde/encode_only/layers/attention/selector.py]
      - [vllm/wde/encode_only/layers/attention/backends/flash_attn.py]
      - [vllm/wde/prefill_only/workflow.py]

    Python integers are [Z], Python strings are [string], [Optional[T]] is
    [option T], Python floats are the binary64 primitive floats, and a
    function that may raise returns a [result]. *)

From Stdlib Require Import ZArith List String Ascii Bool Lia.
From Stdlib Require Import DecimalString PrimFloat.
Import ListNotations.

Open Scope Z_scope.
Open Scope string_scope.

(** ** Exceptions and results *)

(** The Python exception classes raised by the two modules, each carrying the
    message it is raised with (the empty string for a bare [assert]). *)
Inductive exn : Type :=
| ValueError (msg : string)
| AssertionError (msg : string)
| NotImplementedError (msg : string)
| ZeroDivisionError (msg : string)
| RuntimeError (msg : string).

Definition exn_msg (e : exn) : string :=
  match e with
  | ValueError m | AssertionError m
  | NotImplementedError m | ZeroDivisionError m | RuntimeError m => m
  end.

Inductive result (A : Type) : Type :=
| Return (a : A)
| Raise (e : exn).

Arguments Return {A} a.
Arguments Raise {A} e.

Definition bind {A B : Type} (r : result A) (k : A -> result B) : result B :=
  match r with
  | Return a => k a
  | Raise e => Raise e
  end.

Notation "x <- r ;; k" := (bind r (fun x => k))
  (at level 61, r at next level, right associativity).
Notation "' p <- r ;; k" := (bind r (fun p => k))
  (at level 61, p pattern, r at next level, right associativity).
Notation "r ;;; k" := (bind r (fun _ => k))
  (at level 61, right associativity).

(** [assert cond, msg] *)
Definition py_assert (cond : bool) (msg : string) : result unit :=
  if cond then Return tt else Raise (AssertionError msg).

(** ** Strings *)

(** [sep.join(l)] *)
Fixpoint join (sep : string) (l : list string) : string :=
  match l with
  | [] => ""
  | [s] => s
  | s :: rest => s ++ sep ++ join sep rest
  end.

(** [needle in hay] on strings: [needle] occurs in [hay] as a substring. *)
Fixpoint contains (needle hay : string) : bool :=
  if String.prefix needle hay then true
  else match hay with
       | EmptyString => false
       | String _ hay' => contains needle hay'
       end.

(** [str(n)] for an integer: decimal digits, with a leading minus sign for a
    negative number. *)
Definition str_int (n : Z) : string := NilZero.string_of_int (Z.to_int n).

(** [str(l)] for a list of integers, as an f-string renders it. *)
Definition str_int_list (l : list Z) : string :=
  "[" ++ join ", " (map str_int l) ++ "]".

(** ** Integers *)

(** [a % b] on Python integers: the sign follows the divisor, and a zero
    divisor raises. *)
Definition py_mod (a b : Z) : result Z :=
  if (b =? 0)%Z then Raise (ZeroDivisionError "integer modulo by zero")
  else Return (a mod b).

(** [a // b] *)
Definition py_floordiv (a b : Z) : result Z :=
  if (b =? 0)%Z then Raise (ZeroDivisionError "integer division or modulo by zero")
  else Return (a / b).

(** A Python number that is either an [int] or a [float]: the soft cap is an
    [Optional[float]] that the constructor replaces by the integer [0]. *)
Inductive number : Type :=
| PyInt (n : Z)
| PyFloat (x : float).

(** * selector.py *)

Module Selector.

(** [class _Backend(enum.Enum)] *)
Inductive _Backend : Type :=
| FLASH_ATTN
| XFORMERS
| ROCM_FLASH
| TORCH_SDPA
| OPENVINO
| FLASHINFER
| PALLAS
| IPEX.

Definition _Backend_eqb (a b : _Backend) : bool :=
  match a, b with
  | FLASH_ATTN, FLASH_ATTN | XFORMERS, XFORMERS | ROCM_FLASH, ROCM_FLASH
  | TORCH_SDPA, TORCH_SDPA | OPENVINO, OPENVINO | FLASHINFER, FLASHINFER
  | PALLAS, PALLAS | IPEX, IPEX => true
  | _, _ => false
  end.

(** [_Backend.__members__]: the mapping from member names to members, in
    definition order. *)
Definition __members__ : list (string * _Backend) :=
  [ ("FLASH_ATTN", FLASH_ATTN); ("XFORMERS", XFORMERS);
    ("ROCM_FLASH", ROCM_FLASH); ("TORCH_SDPA", TORCH_SDPA);
    ("OPENVINO", OPENVINO); ("FLASHINFER", FLASHINFER);
    ("PALLAS", PALLAS); ("IPEX", IPEX) ].

(** [member.name] *)
Definition name (b : _Backend) : string :=
  match b with
  | FLASH_ATTN => "FLASH_ATTN"
  | XFORMERS => "XFORMERS"
  | ROCM_FLASH => "ROCM_FLASH"
  | TORCH_SDPA => "TORCH_SDPA"
  | OPENVINO => "OPENVINO"
  | FLASHINFER => "FLASHINFER"
  | PALLAS => "PALLAS"
  | IPEX => "IPEX"
  end.

(** [d.get(key)] on a mapping kept as an association list. *)
Fixpoint lookup {A : Type} (key : string) (d : list (string * A)) : option A :=
  match d with
  | [] => None
  | (k, v) :: rest => if String.eqb key k then Some v else lookup key rest
  end.

Definition invalid_backend_msg (backend_name : string) : string :=
  "Invalid attention backend '" ++ backend_name ++ "'. "
  ++ "Available backends: " ++ join ", " (map fst __members__) ++ " "
  ++ "(case-sensitive).".

(** [_Backend.backend_name_to_enum].  The parameter is a [str]; the leading
    [assert backend_name is not None] holds by typing. *)
Definition backend_name_to_enum (backend_name : string) : result _Backend :=
  let backend_members := __members__ in
  match lookup backend_name backend_members with
  | None => Raise (ValueError (invalid_backend_msg backend_name))
  | Some b => Return b
  end.

(** [torch.dtype] *)
Inductive dtype : Type :=
| float16 | bfloat16 | float32 | float64
| uint8 | int8 | int16 | int32 | int64
| bool_ | complex64 | complex128.

Definition dtype_eqb (a b : dtype) : bool :=
  match a, b with
  | float16, float16 | bfloat16, bfloat16 | float32, float32
  | float64, float64 | uint8, uint8 | int8, int8 | int16, int16
  | int32, int32 | int64, int64 | bool_, bool_
  | complex64, complex64 | complex128, complex128 => true
  | _, _ => false
  end.

(** What the selector reads from the process: [envs.VLLM_ATTENTION_BACKEND]
    and [current_platform.get_device_capability()], a (major, minor) pair. *)
Record Env : Type := {
  VLLM_ATTENTION_BACKEND : option string;
  get_device_capability : Z * Z
}.

(** [AttnBackend.which_attn_to_use].  The [logger.info] calls are not
    modelled. *)
Definition which_attn_to_use (env : Env)
    (num_heads head_size num_kv_heads : Z) (sliding_window : option Z)
    (dt : dtype) : result _Backend :=
  let selected_backend := FLASH_ATTN in
  let backend_by_env_var := VLLM_ATTENTION_BACKEND env in
  selected_backend <-
    match backend_by_env_var with
    | Some s => backend_name_to_enum s
    | None => Return selected_backend
    end ;;
  Return
    (if _Backend_eqb selected_backend FLASH_ATTN then
       if (fst (get_device_capability env) <? 8)%Z then XFORMERS
       else if negb (existsb (dtype_eqb dt) [float16; bfloat16]) then XFORMERS
       else match sliding_window with
            | Some _ => XFORMERS
            | None => selected_backend
            end
     else selected_backend).

(** The three checks of [which_attn_to_use] on a [FLASH_ATTN] candidate,
    on their own: what the nested [if]/[elif] leaves of it.  Used to state
    the selector's properties. *)
Definition flash_attn_or_xformers (env : Env) (sliding_window : option Z)
    (dt : dtype) : _Backend :=
  if (fst (get_device_capability env) <? 8)%Z then XFORMERS
  else if negb (existsb (dtype_eqb dt) [float16; bfloat16]) then XFORMERS
  else match sliding_window with
       | Some _ => XFORMERS
       | None => FLASH_ATTN
       end.

(** The backend classes [from_engine] imports and returns. *)
Inductive AttnBackendCls : Type :=
| EncodeOnlyFlashAttentionBackend
| EncodeOnlyTorchSDPABackend.

(** The part of [engine.engine_config.model_config] that [from_engine]
    reads, one field per getter. *)
Record ModelConfig : Type := {
  get_num_attention_heads : Z;
  get_head_size : Z;
  get_num_kv_heads : Z;
  get_sliding_window : option Z;
  model_dtype : dtype
}.

(** The [if]/[elif]/[else] chain of [from_engine] on the selected backend.
    A Python function that reaches its end returns [None]: that is the
    [Return None] of the [XFORMERS] branch, whose body is [pass]. *)
Definition from_engine_dispatch (backend : _Backend)
  : result (option AttnBackendCls) :=
  if _Backend_eqb backend FLASH_ATTN then
    Return (Some EncodeOnlyFlashAttentionBackend)
  else if _Backend_eqb backend XFORMERS then
    Return None
  else if _Backend_eqb backend TORCH_SDPA then
    Return (Some EncodeOnlyTorchSDPABackend)
  else Raise (ValueError "Invalid attention backend.").

(** [AttnBackend.from_engine] *)
Definition from_engine (env : Env) (model_config : ModelConfig)
  : result (option AttnBackendCls) :=
  let num_heads := get_num_attention_heads model_config in
  let head_size := get_head_size model_config in
  let num_kv_heads := get_num_kv_heads model_config in
  let sliding_window := get_sliding_window model_config in
  let dt := model_dtype model_config in
  backend <- which_attn_to_use env num_heads head_size num_kv_heads
               sliding_window dt ;;
  from_engine_dispatch backend.

(** Two processes without an override, on compute capability 8.0 and 7.5,
    and a model of eight heads of size 64 in half precision. *)
Definition ampere : Env :=
  {| VLLM_ATTENTION_BACKEND := None; get_device_capability := (8, 0) |}.

Definition turing : Env :=
  {| VLLM_ATTENTION_BACKEND := None; get_device_capability := (7, 5) |}.

Definition roberta_half : ModelConfig :=
  {| get_num_attention_heads := 8; get_head_size := 64;
     get_num_kv_heads := 8; get_sliding_window := None;
     model_dtype := float16 |}.

End Selector.

(** * backends/flash_attn.py *)

Module FlashAttn.

(** Modelled from the spec: the members of [AttentionType], which
    [flash_attn.py] imports from [vllm.wde.core.layers.attention.abstract];
    the spec gives the attention modes as ENCODER, DECODER_SELF and CROSS. *)
Inductive AttentionType : Type :=
| ENCODER
| DECODER_SELF
| CROSS.

Definition AttentionType_eqb (a b : AttentionType) : bool :=
  match a, b with
  | ENCODER, ENCODER | DECODER_SELF, DECODER_SELF | CROSS, CROSS => true
  | _, _ => false
  end.

(** What the layer uses of [torch] and of the [vllm_flash_attn] package:
    tensors, their shape, [view], [torch.tensor(_, dtype=torch.float32)] and
    the packed-sequence kernel itself.  [view] and the kernel may raise. *)
Class Torch : Type := {
  Tensor : Type;
  Any : Type;
  tensor_float32 : list float -> Tensor;
  shape : Tensor -> list Z;
  view : Tensor -> list Z -> result Tensor
}.

(** [class EncodeOnlyFlashAttentionBackend] *)
Module EncodeOnlyFlashAttentionBackend.

Definition get_supported_head_sizes : list Z :=
  [32; 64; 96; 128; 160; 192; 224; 256].

Definition get_name : string := "flash_attn".

End EncodeOnlyFlashAttentionBackend.

(** [class EncodeOnlyFlashAttentionMetadata]: an empty dataclass over
    [EncodeOnlyAttentionMetadata]; [forward] reads these two attributes. *)
Record EncodeOnlyFlashAttentionMetadata : Type := {
  seq_start_loc : list Z;
  max_seq_len : Z
}.

Section Impl.

Context {T : Torch}.

(** The keyword arguments of the [flash_attn_varlen_func] call. *)
Record VarlenCall : Type := {
  q : Tensor;
  k : Tensor;
  v : Tensor;
  cu_seqlens_q : list Z;
  cu_seqlens_k : list Z;
  max_seqlen_q : Z;
  max_seqlen_k : Z;
  softmax_scale : float;
  causal : bool;
  window_size : Z * Z;
  kernel_alibi_slopes : option Tensor;
  softcap : number
}.

(** The attributes [__init__] sets on [self]; [flash_attn_varlen_func] is
    the kernel imported from [vllm_flash_attn], taken to be installed. *)
Record EncodeOnlyFlashAttentionImpl : Type := {
  flash_attn_varlen_func : VarlenCall -> result Tensor;
  num_heads : Z;
  head_size : Z;
  scale : float;
  num_kv_heads : Z;
  alibi_slopes : option Tensor;
  sliding_window : Z * Z;
  logits_soft_cap : number;
  num_queries_per_kv : Z
}.

Definition blocksparse_msg : string :=
  "FlashAttention does not support block-sparse attention.".

Definition sliding_window_msg : string :=
  "Sliding window is not supported in FlashAttention.".

Definition head_size_msg (head_size : Z) (support_head_sizes : list Z)
  : string :=
  "Head size " ++ str_int head_size
  ++ " is not supported by FlashAttention. "
  ++ "Supported head sizes are: " ++ str_int_list support_head_sizes ++ ".".

(** [EncodeOnlyFlashAttentionImpl.__init__].  [kernel] is what the import
    of [flash_attn_varlen_func] binds. *)
Definition __init__ (kernel : VarlenCall -> result Tensor)
    (num_heads head_size : Z) (scale : float) (num_kv_heads : Z)
    (alibi_slopes : option (list float)) (sliding_window : option Z)
    (blocksparse_params : option (list (string * Any)))
    (logits_soft_cap : option float)
  : result EncodeOnlyFlashAttentionImpl :=
  match blocksparse_params with
  | Some _ => Raise (ValueError blocksparse_msg)
  | None =>
    let self_alibi_slopes := option_map tensor_float32 alibi_slopes in
    let self_sliding_window :=
      match sliding_window with
      | Some w => (w, w)
      | None => (-1, -1)
      end in
    let self_logits_soft_cap :=
      match logits_soft_cap with
      | None => PyInt 0
      | Some c => PyFloat c
      end in
    r <- py_mod num_heads num_kv_heads ;;
    py_assert (r =? 0)%Z "" ;;;
    self_num_queries_per_kv <- py_floordiv num_heads num_kv_heads ;;
    match sliding_window with
    | Some _ => Raise (ValueError sliding_window_msg)
    | None =>
      let support_head_sizes :=
        EncodeOnlyFlashAttentionBackend.get_supported_head_sizes in
      if negb (existsb (Z.eqb head_size) support_head_sizes) then
        Raise (ValueError (head_size_msg head_size support_head_sizes))
      else
        Return {| flash_attn_varlen_func := kernel;
                  num_heads := num_heads;
                  head_size := head_size;
                  scale := scale;
                  num_kv_heads := num_kv_heads;
                  alibi_slopes := self_alibi_slopes;
                  sliding_window := self_sliding_window;
                  logits_soft_cap := self_logits_soft_cap;
                  num_queries_per_kv := self_num_queries_per_kv |}
    end
  end.

Definition not_implemented_msg : string :=
  "Decoder self-attention and " ++ "encoder/decoder cross-attention "
  ++ "are not implemented for " ++ "EncodeOnlyFlashAttentionImpl".

Definition scale_msg : string :=
  "key/v_scale is not supported in FlashAttention.".

(** [num_tokens, hidden_size = query.shape] *)
Definition unpack2 (s : list Z) : result (Z * Z) :=
  match s with
  | [a; b] => Return (a, b)
  | [] | [_] =>
    Raise (ValueError "not enough values to unpack (expected 2)")
  | _ => Raise (ValueError "too many values to unpack (expected 2)")
  end.

(** The call [forward] makes to the kernel, on the reshaped tensors. *)
Definition varlen_call (self : EncodeOnlyFlashAttentionImpl)
    (query key value : Tensor)
    (attn_metadata : EncodeOnlyFlashAttentionMetadata) : VarlenCall :=
  {| q := query;
     k := key;
     v := value;
     cu_seqlens_q := seq_start_loc attn_metadata;
     cu_seqlens_k := seq_start_loc attn_metadata;
     max_seqlen_q := max_seq_len attn_metadata;
     max_seqlen_k := max_seq_len attn_metadata;
     softmax_scale := scale self;
     causal := false;
     window_size := sliding_window self;
     kernel_alibi_slopes := alibi_slopes self;
     softcap := logits_soft_cap self |}.

(** The body of [forward] after its two checks: reshape, call the kernel,
    reshape back. *)
Definition run_kernel (self : EncodeOnlyFlashAttentionImpl)
    (query key value : Tensor)
    (attn_metadata : EncodeOnlyFlashAttentionMetadata) : result Tensor :=
  '(num_tokens, hidden_size) <- unpack2 (shape query) ;;
  query <- view query [-1; num_heads self; head_size self] ;;
  key <- view key [-1; num_kv_heads self; head_size self] ;;
  value <- view value [-1; num_kv_heads self; head_size self] ;;
  attn_output <- flash_attn_varlen_func self
                   (varlen_call self query key value attn_metadata) ;;
  view attn_output [num_tokens; hidden_size].

(** [EncodeOnlyFlashAttentionImpl.forward] *)
Definition forward (self : EncodeOnlyFlashAttentionImpl)
    (query key value : Tensor)
    (attn_metadata : EncodeOnlyFlashAttentionMetadata)
    (k_scale v_scale : float) (attn_type : AttentionType) : result Tensor :=
  if negb (AttentionType_eqb attn_type ENCODER) then
    Raise (NotImplementedError not_implemented_msg)
  else
    py_assert (PrimFloat.eqb k_scale 1%float && PrimFloat.eqb v_scale 1%float)
      scale_msg ;;;
    run_kernel self query key value attn_metadata.

End Impl.

(** A small implementation of the [Torch] interface on which the layer can
    be run: a tensor is its shape alone.  [view] accepts one inferred
    dimension, written [-1], and raises when the element counts disagree. *)
Definition numel (s : list Z) : Z := fold_right Z.mul 1 s.

Definition shape_view (t : list Z) (dims : list Z) : result (list Z) :=
  let known := numel (filter (fun d => negb (d =? -1)%Z) dims) in
  if existsb (Z.eqb (-1)) dims then
    if (known =? 0)%Z || negb (numel t mod known =? 0)%Z then
      Raise (RuntimeError "shape is invalid for input")
    else
      Return (map (fun d => if (d =? -1)%Z then numel t / known else d) dims)
  else if (known =? numel t)%Z then Return dims
  else Raise (RuntimeError "shape is invalid for input").

Definition ShapeTorch : Torch :=
  {| Tensor := list Z;
     Any := unit;
     tensor_float32 := fun l => [Z.of_nat (List.length l)];
     shape := fun t => t;
     view := shape_view |}.

(** A kernel for [ShapeTorch]: the output has the shape of the query. *)
Definition shape_kernel (c : @VarlenCall ShapeTorch)
  : result (@Tensor ShapeTorch) :=
  Return (q c).

(** The implementation [__init__] returns on [ShapeTorch] for four heads of
    size 64 over four key/value heads, with no soft cap. *)
Definition shape_impl : @EncodeOnlyFlashAttentionImpl ShapeTorch :=
  {| flash_attn_varlen_func := shape_kernel;
     num_heads := 4;
     head_size := 64;
     scale := 0.125%float;
     num_kv_heads := 4;
     alibi_slopes := None;
     sliding_window := (-1, -1);
     logits_soft_cap := PyInt 0;
     num_queries_per_kv := 1 |}.

(** The metadata of a batch of three sequences of 3, 5 and 2 tokens. *)
Definition shape_metadata : EncodeOnlyFlashAttentionMetadata :=
  {| seq_start_loc := [0; 3; 8; 10]; max_seq_len := 5 |}.

End FlashAttn.

(** * The sequence metadata builder *)

Module MetadataBuilder.

Import FlashAttn.

(** Modelled from the spec: the running offsets of the builder.
    [EncodeOnlyFlashAttentionMetadataBuilder] is an empty subclass of
    [EncodeOnlyAttentionMetadataBuilder], whose module ([backends/abstract.py])
    is not among the sources; the spec has it compute prefix-sum offsets
    starting at 0.  [acc] is the number of tokens packed so far. *)
Fixpoint offsets_from (acc : Z) (seq_lens : list Z) : list Z :=
  match seq_lens with
  | [] => [acc]
  | n :: rest => acc :: offsets_from (acc + n) rest
  end.

(** Modelled from the spec: the [maxSeqLen] of the missing builder, the
    maximum of the input lengths and 0 for an empty input. *)
Definition max_of (seq_lens : list Z) : Z :=
  match seq_lens with
  | [] => 0
  | n :: rest => fold_left Z.max rest n
  end.

(** Modelled from the spec: [build] of the missing
    [EncodeOnlyAttentionMetadataBuilder], from the per-request token lengths
    to the packed-sequence layout that [forward] reads. *)
Definition build (seq_lens : list Z) : EncodeOnlyFlashAttentionMetadata :=
  {| seq_start_loc := offsets_from 0 seq_lens;
     max_seq_len := max_of seq_lens |}.

(** The sum of a list of lengths, used to state what the offsets are. *)
Definition total (seq_lens : list Z) : Z := fold_right Z.add 0 seq_lens.

End MetadataBuilder.

(** * prefill_only/workflow.py *)

Module PrefillOnlyWorkflow.

(** The component paths of a workflow, one per class attribute of
    [PrefillOnlyWorkflow]; an instance made by [cls()] starts from the class
    attributes. *)
Record Workflow : Type := {
  InputProcessor : string;
  RequestProcessor : string;
  OutputProcessor : string;
  ModelInputBuilder : string;
  Worker : string;
  Executor : string;
  Scheduler : string;
  AttnBackend : string
}.

(** The class attributes, with Python's adjacent string literals joined. *)
Definition cls : Workflow :=
  {| InputProcessor :=
       "vllm.wde.prefill_only.processor."
       ++ "input_processor:PrefillOnlyModelInputProcessor";
     RequestProcessor :=
       "vllm.wde.prefill_only.processor."
       ++ "input_processor:PrefillOnlyModelRequestProcessor";
     OutputProcessor :=
       "vllm.wde.prefill_only.processor."
       ++ "output_processor:PrefillOnlyModelOutputProcessor";
     ModelInputBuilder :=
       "vllm.wde.prefill_only.processor."
       ++ "model_input_builder:PrefillOnlyModelInputBuilder";
     Worker := "vllm.wde.prefill_only.worker.gpu_worker:Worker";
     Executor := "vllm.wde.prefill_only.executor.gpu_executor";
     Scheduler := "vllm.wde.prefill_only.scheduler:PrefillOnlyScheduler";
     AttnBackend :=
       "vllm.wde.prefill_only.layers." ++ "attention.selector:AttnBackend" |}.

(** [workflow.Executor += suffix] on an instance. *)
Definition add_to_Executor (workflow : Workflow) (suffix : string)
  : Workflow :=
  {| InputProcessor := InputProcessor workflow;
     RequestProcessor := RequestProcessor workflow;
     OutputProcessor := OutputProcessor workflow;
     ModelInputBuilder := ModelInputBuilder workflow;
     Worker := Worker workflow;
     Executor := Executor workflow ++ suffix;
     Scheduler := Scheduler workflow;
     AttnBackend := AttnBackend workflow |}.

(** What [from_engine] reads of the engine:
    [engine.engine_config.scheduler_config.scheduling]. *)
Record Engine : Type := {
  scheduling : string
}.

(** [PrefillOnlyWorkflow.from_engine] *)
Definition from_engine (engine : Engine) : Workflow :=
  let workflow := cls in
  if existsb (String.eqb (scheduling engine)) ["sync"] then
    add_to_Executor workflow ":GPUExecutor"
  else if existsb (String.eqb (scheduling engine)) ["async"; "double_buffer"]
  then add_to_Executor workflow ":GPUAsyncExecutor"
  else workflow.

End PrefillOnlyWorkflow.

(** * Properties *)

Import Selector FlashAttn.

(** ** Strings: substring search *)

Lemma prefix_app (s t : string) : String.prefix s (s ++ t) = true.
Proof.
  induction s as [|c s IH]; simpl.
  - now destruct t.
  - rewrite IH. now destruct (Ascii.ascii_dec c c).
Qed.

Lemma contains_prefix (needle hay : string) :
  String.prefix needle hay = true -> contains needle hay = true.
Proof.
  intros H. destruct hay; cbn [contains]; rewrite H; reflexivity.
Qed.

Lemma contains_app (needle pre post : string) :
  contains needle (pre ++ needle ++ post) = true.
Proof.
  induction pre as [|c pre IH].
  - cbn [append]. apply contains_prefix, prefix_app.
  - change (String c pre ++ needle ++ post)
      with (String c (pre ++ needle ++ post)).
    cbn [contains]. rewrite IH.
    now destruct (String.prefix needle (String c (pre ++ needle ++ post))).
Qed.

Lemma contains_skip (needle pre hay : string) :
  contains needle hay = true -> contains needle (pre ++ hay) = true.
Proof.
  intros H. induction pre as [|c pre IH].
  - exact H.
  - change (String c pre ++ hay) with (String c (pre ++ hay)).
    cbn [contains]. rewrite IH.
    now destruct (String.prefix needle (String c (pre ++ hay))).
Qed.

(** ** The backend enumeration *)

Lemma _Backend_eqb_eq (a b : _Backend) : _Backend_eqb a b = true <-> a = b.
Proof. destruct a, b; simpl; split; congruence. Qed.

Lemma lookup_name (b : _Backend) : lookup (name b) __members__ = Some b.
Proof. destruct b; reflexivity. Qed.

Lemma lookup_not_a_name (s : string) :
  (forall b, s <> name b) -> lookup s __members__ = None.
Proof.
  intros H. unfold __members__, lookup.
  repeat match goal with
  | |- context [String.eqb s ?n] =>
      let E := fresh "E" in
      destruct (String.eqb s n) eqn:E;
      [ apply String.eqb_eq in E; exfalso | ]
  end;
  try reflexivity.
  - exact (H FLASH_ATTN E).
  - exact (H XFORMERS E0).
  - exact (H ROCM_FLASH E1).
  - exact (H TORCH_SDPA E2).
  - exact (H OPENVINO E3).
  - exact (H FLASHINFER E4).
  - exact (H PALLAS E5).
  - exact (H IPEX E6).
Qed.

Lemma lookup_some_name (s : string) (b : _Backend) :
  lookup s __members__ = Some b -> s = name b.
Proof.
  unfold __members__, lookup.
  repeat match goal with
  | |- context [String.eqb s ?n] =>
      let E := fresh "E" in
      destruct (String.eqb s n) eqn:E;
      [ apply String.eqb_eq in E; intros [= <-]; exact E | ]
  end.
  discriminate.
Qed.

(** The error message lists every member name, whatever the rejected
    string is. *)
Lemma invalid_backend_msg_lists (s : string) (b : _Backend) :
  contains (name b) (invalid_backend_msg s) = true.
Proof.
  unfold invalid_backend_msg.
  apply contains_skip.
  apply (contains_skip _ s).
  apply (contains_skip _ "'. ").
  apply (contains_skip _ "Available backends: ").
  destruct b; reflexivity.
Qed.

(** C10: [backend_name_to_enum] maps the name of every member of [_Backend]
    back to that member, and on every string that is not one of the eight
    member names (compared case-sensitively) it raises a [ValueError] whose
    message lists all the available backends. *)
Theorem backend_name_to_enum_roundtrip :
  (forall b : _Backend, backend_name_to_enum (name b) = Return b) /\
  (forall s : string,
     (forall b : _Backend, s <> name b) ->
     backend_name_to_enum s = Raise (ValueError (invalid_backend_msg s)) /\
     forall b : _Backend, contains (name b) (invalid_backend_msg s) = true).
Proof.
  split.
  - intros b. unfold backend_name_to_enum. now rewrite lookup_name.
  - intros s Hs. split.
    + unfold backend_name_to_enum. now rewrite (lookup_not_a_name s Hs).
    + intros b. apply invalid_backend_msg_lists.
Qed.

Lemma flash_attn_lowercase_not_a_name (b : _Backend) :
  "flash_attn" <> name b.
Proof. destruct b; discriminate. Qed.

(** The lower-case spelling of a member name is rejected, and the message
    names the member it may have meant. *)
Lemma backend_name_to_enum_roundtrip_witness :
  backend_name_to_enum "flash_attn"
  = Raise (ValueError
      "Invalid attention backend 'flash_attn'. Available backends: FLASH_ATTN, XFORMERS, ROCM_FLASH, TORCH_SDPA, OPENVINO, FLASHINFER, PALLAS, IPEX (case-sensitive).")
  /\ contains "FLASH_ATTN" (invalid_backend_msg "flash_attn") = true.
Proof.
  destruct (proj2 backend_name_to_enum_roundtrip "flash_attn"
              flash_attn_lowercase_not_a_name) as [Hraise Hlist].
  split.
  - exact Hraise.
  - exact (Hlist FLASH_ATTN).
Defined.

(** ** The selector *)

Lemma dtype_in_half (dt : dtype) :
  existsb (dtype_eqb dt) [float16; bfloat16] = true
  <-> dt = float16 \/ dt = bfloat16.
Proof.
  destruct dt; simpl; split; intros H; try reflexivity; try discriminate;
    try (left; reflexivity); try (right; reflexivity);
    destruct H; discriminate.
Qed.

Lemma flash_attn_or_xformers_spec (env : Env) (sw : option Z) (dt : dtype) :
  (8 <= fst (get_device_capability env)
   /\ (dt = float16 \/ dt = bfloat16) /\ sw = None
   -> flash_attn_or_xformers env sw dt = FLASH_ATTN)
  /\ (fst (get_device_capability env) < 8
      \/ (dt <> float16 /\ dt <> bfloat16) \/ sw <> None
      -> flash_attn_or_xformers env sw dt = XFORMERS).
Proof.
  unfold flash_attn_or_xformers.
  destruct (Z.ltb_spec (fst (get_device_capability env)) 8) as [Hlt | Hge].
  - split; [lia | reflexivity].
  - destruct (existsb (dtype_eqb dt) [float16; bfloat16]) eqn:Hdt; simpl.
    + apply dtype_in_half in Hdt.
      destruct sw as [w|]; split; try reflexivity.
      * intros (_ & _ & [=]).
      * intros [Hc | [[H1 H2] | Hs]]; [lia | destruct Hdt; contradiction
                                      | contradiction].
    + split; [| reflexivity].
      intros (_ & Hd & _). apply dtype_in_half in Hd. congruence.
Qed.

Lemma which_attn_to_use_no_override (env : Env) (nh hs nkv : Z)
    (sw : option Z) (dt : dtype) :
  VLLM_ATTENTION_BACKEND env = None ->
  which_attn_to_use env nh hs nkv sw dt
  = Return (flash_attn_or_xformers env sw dt).
Proof.
  intros Henv. unfold which_attn_to_use, flash_attn_or_xformers.
  rewrite Henv. simpl.
  destruct (fst (get_device_capability env) <? 8)%Z; [reflexivity|].
  destruct (dtype_eqb dt float16 || (dtype_eqb dt bfloat16 || false));
    [|reflexivity].
  now destruct sw.
Qed.

Lemma which_attn_to_use_override (env : Env) (nh hs nkv : Z)
    (sw : option Z) (dt : dtype) (s : string) (b : _Backend) :
  VLLM_ATTENTION_BACKEND env = Some s ->
  backend_name_to_enum s = Return b ->
  which_attn_to_use env nh hs nkv sw dt
  = Return (if _Backend_eqb b FLASH_ATTN
            then flash_attn_or_xformers env sw dt else b).
Proof.
  intros Henv Hparse. unfold which_attn_to_use, flash_attn_or_xformers.
  rewrite Henv, Hparse. simpl.
  destruct (_Backend_eqb b FLASH_ATTN) eqn:Hb; [|reflexivity].
  apply _Backend_eqb_eq in Hb. subst b.
  destruct (fst (get_device_capability env) <? 8)%Z; [reflexivity|].
  destruct (dtype_eqb dt float16 || (dtype_eqb dt bfloat16 || false));
    [|reflexivity].
  now destruct sw.
Qed.

(** C1: with no override in the environment, [which_attn_to_use] returns
    [FLASH_ATTN] when the major compute capability is at least 8, the dtype
    is [float16] or [bfloat16] and there is no sliding window; when any of
    the three fails it returns [XFORMERS], so never [FLASH_ATTN]. *)
Theorem which_attn_to_use_default (env : Env)
    (num_heads head_size num_kv_heads : Z) (sliding_window : option Z)
    (dt : dtype) :
  VLLM_ATTENTION_BACKEND env = None ->
  let selected :=
    which_attn_to_use env num_heads head_size num_kv_heads sliding_window dt in
  (8 <= fst (get_device_capability env)
   /\ (dt = float16 \/ dt = bfloat16) /\ sliding_window = None
   -> selected = Return FLASH_ATTN)
  /\ (fst (get_device_capability env) < 8
      \/ (dt <> float16 /\ dt <> bfloat16) \/ sliding_window <> None
      -> selected = Return XFORMERS /\ selected <> Return FLASH_ATTN).
Proof.
  intros Henv selected. subst selected.
  rewrite (which_attn_to_use_no_override _ _ _ _ _ _ Henv).
  destruct (flash_attn_or_xformers_spec env sliding_window dt) as [Hyes Hno].
  split.
  - intros H. now rewrite (Hyes H).
  - intros H. rewrite (Hno H). split; [reflexivity | discriminate].
Qed.

(** The end-to-end scenario: 8 heads of size 64 in [float16] select
    [FLASH_ATTN] on compute capability 8.0 and [XFORMERS] on 7.5. *)
Lemma which_attn_to_use_default_witness :
  which_attn_to_use
    {| VLLM_ATTENTION_BACKEND := None; get_device_capability := (8, 0) |}
    8 64 8 None float16 = Return FLASH_ATTN
  /\ which_attn_to_use
       {| VLLM_ATTENTION_BACKEND := None; get_device_capability := (7, 5) |}
       8 64 8 None float16 = Return XFORMERS.
Proof.
  split.
  - apply (which_attn_to_use_default
             {| VLLM_ATTENTION_BACKEND := None;
                get_device_capability := (8, 0) |}
             8 64 8 None float16 eq_refl).
    simpl. split; [lia | split; [left; reflexivity | reflexivity]].
  - apply (which_attn_to_use_default
             {| VLLM_ATTENTION_BACKEND := None;
                get_device_capability := (7, 5) |}
             8 64 8 None float16 eq_refl).
    simpl. left. lia.
Defined.

(** C2, as stated, fails: the override [FLASH_ATTN] parses, yet on compute
    capability 7.5 the selector returns [XFORMERS]: the capability, dtype
    and sliding-window checks run on an overriding [FLASH_ATTN] as well. *)
Lemma override_flash_attn_counterexample :
  let env := {| VLLM_ATTENTION_BACKEND := Some "FLASH_ATTN";
                get_device_capability := (7, 5) |} in
  backend_name_to_enum "FLASH_ATTN" = Return FLASH_ATTN
  /\ which_attn_to_use env 8 64 8 None float16 = Return XFORMERS
  /\ which_attn_to_use env 8 64 8 None float16 <> Return FLASH_ATTN.
Proof.
  repeat split. discriminate.
Qed.

(** C2, amended: an override that parses to a backend other than
    [FLASH_ATTN] is returned as it is, with no downgrade rule applied; an
    override that parses to [FLASH_ATTN] goes through the same three checks
    as the default candidate, and is returned only if it passes them all, and
    [XFORMERS] is returned otherwise. *)
Theorem which_attn_to_use_with_override (env : Env)
    (num_heads head_size num_kv_heads : Z) (sliding_window : option Z)
    (dt : dtype) (s : string) (b : _Backend) :
  VLLM_ATTENTION_BACKEND env = Some s ->
  backend_name_to_enum s = Return b ->
  let selected :=
    which_attn_to_use env num_heads head_size num_kv_heads sliding_window dt in
  (b <> FLASH_ATTN -> selected = Return b)
  /\ (b = FLASH_ATTN ->
      (8 <= fst (get_device_capability env)
       /\ (dt = float16 \/ dt = bfloat16) /\ sliding_window = None
       -> selected = Return FLASH_ATTN)
      /\ (fst (get_device_capability env) < 8
          \/ (dt <> float16 /\ dt <> bfloat16) \/ sliding_window <> None
          -> selected = Return XFORMERS)).
Proof.
  intros Henv Hparse selected. subst selected.
  rewrite (which_attn_to_use_override _ _ _ _ _ _ _ _ Henv Hparse).
  split.
  - intros Hb. destruct (_Backend_eqb b FLASH_ATTN) eqn:E; [|reflexivity].
    apply _Backend_eqb_eq in E. contradiction.
  - intros ->. simpl.
    destruct (flash_attn_or_xformers_spec env sliding_window dt) as [Hyes Hno].
    split; intros H; [now rewrite (Hyes H) | now rewrite (Hno H)].
Qed.

(** An overriding [TORCH_SDPA] is kept on a device and dtype that would
    downgrade [FLASH_ATTN]. *)
Lemma which_attn_to_use_with_override_witness :
  which_attn_to_use
    {| VLLM_ATTENTION_BACKEND := Some "TORCH_SDPA";
       get_device_capability := (7, 5) |}
    8 64 8 (Some 128) float32 = Return TORCH_SDPA.
Proof.
  apply (which_attn_to_use_with_override
           {| VLLM_ATTENTION_BACKEND := Some "TORCH_SDPA";
              get_device_capability := (7, 5) |}
           8 64 8 (Some 128) float32 "TORCH_SDPA" TORCH_SDPA
           eq_refl eq_refl).
  discriminate.
Defined.

(** ** The dispatcher *)

Lemma from_engine_unfold (env : Env) (cfg : ModelConfig) (b : _Backend) :
  which_attn_to_use env (get_num_attention_heads cfg) (get_head_size cfg)
    (get_num_kv_heads cfg) (get_sliding_window cfg) (model_dtype cfg)
  = Return b ->
  from_engine env cfg = from_engine_dispatch b.
Proof. intros H. unfold from_engine. now rewrite H. Qed.

(** The selector falls back to [XFORMERS], and for [XFORMERS] the dispatcher
    reaches the end of [from_engine]: the call returns [None] and raises
    nothing. *)
Lemma from_engine_xformers_returns_None :
  from_engine
    {| VLLM_ATTENTION_BACKEND := None; get_device_capability := (7, 5) |}
    {| get_num_attention_heads := 8; get_head_size := 64;
       get_num_kv_heads := 8; get_sliding_window := None;
       model_dtype := float16 |}
  = Return None.
Proof. reflexivity. Qed.

(** C3, as stated, fails.  [ROCM_FLASH] is returned by the selector (through
    the override) and has no branch in the dispatcher; resolving it raises,
    but the message is a fixed text that names no backend.  And [XFORMERS],
    the claim's own example, raises nothing at all. *)
Lemma from_engine_unregistered_counterexample :
  let cfg := {| get_num_attention_heads := 8; get_head_size := 64;
                get_num_kv_heads := 8; get_sliding_window := None;
                model_dtype := float16 |} in
  let env := {| VLLM_ATTENTION_BACKEND := Some "ROCM_FLASH";
                get_device_capability := (8, 0) |} in
  which_attn_to_use env 8 64 8 None float16 = Return ROCM_FLASH
  /\ from_engine env cfg = Raise (ValueError "Invalid attention backend.")
  /\ contains (name ROCM_FLASH) "Invalid attention backend." = false
  /\ from_engine_dispatch XFORMERS = Return None.
Proof. repeat split. Qed.

(** C3, amended: for every backend the selector returns other than
    [FLASH_ATTN], [TORCH_SDPA] and [XFORMERS] (that is [ROCM_FLASH],
    [OPENVINO], [FLASHINFER], [PALLAS] and [IPEX]), [from_engine] raises a
    [ValueError] with the fixed message "Invalid attention backend.", which
    does not name the backend. *)
Theorem from_engine_unregistered (env : Env) (cfg : ModelConfig)
    (b : _Backend) :
  which_attn_to_use env (get_num_attention_heads cfg) (get_head_size cfg)
    (get_num_kv_heads cfg) (get_sliding_window cfg) (model_dtype cfg)
  = Return b ->
  b <> FLASH_ATTN -> b <> TORCH_SDPA -> b <> XFORMERS ->
  from_engine env cfg = Raise (ValueError "Invalid attention backend.")
  /\ contains (name b) "Invalid attention backend." = false.
Proof.
  intros Hsel Hf Ht Hx. rewrite (from_engine_unfold _ _ _ Hsel).
  destruct b; try contradiction; split; reflexivity.
Qed.

Lemma from_engine_unregistered_witness :
  from_engine
    {| VLLM_ATTENTION_BACKEND := Some "PALLAS";
       get_device_capability := (8, 0) |}
    {| get_num_attention_heads := 8; get_head_size := 64;
       get_num_kv_heads := 8; get_sliding_window := None;
       model_dtype := float16 |}
  = Raise (ValueError "Invalid attention backend.")
  /\ contains "PALLAS" "Invalid attention backend." = false.
Proof.
  apply (from_engine_unregistered
           {| VLLM_ATTENTION_BACKEND := Some "PALLAS";
              get_device_capability := (8, 0) |}
           {| get_num_attention_heads := 8; get_head_size := 64;
              get_num_kv_heads := 8; get_sliding_window := None;
              model_dtype := float16 |}
           PALLAS eq_refl); discriminate.
Defined.

(** ** Construction of the implementation *)

Lemma py_mod_exact (a b : Z) :
  py_mod a b = Return 0 -> b <> 0 /\ a mod b = 0.
Proof.
  unfold py_mod. destruct (Z.eqb_spec b 0); [discriminate|].
  intros [= H]. now split.
Qed.

Lemma supported_head_size_iff (hs : Z) :
  existsb (Z.eqb hs) EncodeOnlyFlashAttentionBackend.get_supported_head_sizes
  = true
  <-> In hs [32; 64; 96; 128; 160; 192; 224; 256].
Proof.
  unfold EncodeOnlyFlashAttentionBackend.get_supported_head_sizes.
  rewrite existsb_exists. split.
  - intros (x & Hin & Heq). apply Z.eqb_eq in Heq. now subst x.
  - intros Hin. exists hs. split; [exact Hin | apply Z.eqb_refl].
Qed.

(** In [ENCODER] mode with both scales equal to 1.0, and on tensors the
    reshapes accept, [forward] is the kernel applied to [varlen_call],
    reshaped back to the shape of the query. *)
Lemma forward_calls_kernel {T : Torch} (self : EncodeOnlyFlashAttentionImpl)
    (query key value : Tensor)
    (attn_metadata : EncodeOnlyFlashAttentionMetadata)
    (k_scale v_scale : float) (num_tokens hidden_size : Z)
    (q' k' v' : Tensor) :
  PrimFloat.eqb k_scale 1%float = true ->
  PrimFloat.eqb v_scale 1%float = true ->
  shape query = [num_tokens; hidden_size] ->
  view query [-1; num_heads self; head_size self] = Return q' ->
  view key [-1; num_kv_heads self; head_size self] = Return k' ->
  view value [-1; num_kv_heads self; head_size self] = Return v' ->
  forward self query key value attn_metadata k_scale v_scale ENCODER
  = (attn_output <- flash_attn_varlen_func self
                      (varlen_call self q' k' v' attn_metadata) ;;
     view attn_output [num_tokens; hidden_size]).
Proof.
  intros Hk Hv Hshape Hq Hkey Hval.
  unfold forward. cbn [AttentionType_eqb negb].
  rewrite Hk, Hv. cbn [andb py_assert bind].
  unfold run_kernel. rewrite Hshape. cbn [unpack2 bind].
  rewrite Hq. cbn [bind]. rewrite Hkey. cbn [bind]. rewrite Hval.
  reflexivity.
Qed.

Section Construction.

Context {T : Torch}.

Variable kernel : VarlenCall -> result Tensor.
Variables (num_heads head_size : Z) (scale : float) (num_kv_heads : Z).
Variable alibi_slopes : option (list float).
Variable logits_soft_cap : option float.

(** Past the block-sparse check, and with the division exact, [__init__]
    is decided by the sliding window and the head size. *)
Lemma init_exact_division (sliding_window : option Z) :
  py_mod num_heads num_kv_heads = Return 0 ->
  __init__ kernel num_heads head_size scale num_kv_heads alibi_slopes
    sliding_window None logits_soft_cap
  = match sliding_window with
    | Some _ => Raise (ValueError sliding_window_msg)
    | None =>
      if existsb (Z.eqb head_size)
           EncodeOnlyFlashAttentionBackend.get_supported_head_sizes
      then Return
        {| flash_attn_varlen_func := kernel;
           FlashAttn.num_heads := num_heads;
           FlashAttn.head_size := head_size;
           FlashAttn.scale := scale;
           FlashAttn.num_kv_heads := num_kv_heads;
           FlashAttn.alibi_slopes := option_map tensor_float32 alibi_slopes;
           sliding_window := (-1, -1);
           FlashAttn.logits_soft_cap :=
             match logits_soft_cap with
             | None => PyInt 0
             | Some c => PyFloat c
             end;
           num_queries_per_kv := num_heads / num_kv_heads |}
      else Raise (ValueError
                    (head_size_msg head_size
                       EncodeOnlyFlashAttentionBackend.get_supported_head_sizes))
    end.
Proof.
  intros Hmod. destruct (py_mod_exact _ _ Hmod) as [Hnz _].
  unfold __init__. rewrite Hmod. cbn [bind py_assert Z.eqb].
  unfold py_floordiv. destruct (Z.eqb_spec num_kv_heads 0); [contradiction|].
  cbn [bind]. destruct sliding_window; [reflexivity|].
  now destruct (existsb (Z.eqb head_size) _).
Qed.

(** C4: when [num_heads % num_kv_heads == 0], [__init__] either returns the
    implementation or raises one of the three [ValueError]s of the
    constructor: block-sparse attention requested, sliding window requested,
    head size not supported.  No other exception is raised. *)
Theorem init_succeeds_or_named_error (sliding_window : option Z)
    (blocksparse_params : option (list (string * Any))) :
  py_mod num_heads num_kv_heads = Return 0 ->
  let r := __init__ kernel num_heads head_size scale num_kv_heads
             alibi_slopes sliding_window blocksparse_params logits_soft_cap in
  (blocksparse_params <> None /\ r = Raise (ValueError blocksparse_msg))
  \/ (blocksparse_params = None /\ sliding_window <> None
      /\ r = Raise (ValueError sliding_window_msg))
  \/ (blocksparse_params = None /\ sliding_window = None
      /\ ~ In head_size [32; 64; 96; 128; 160; 192; 224; 256]
      /\ r = Raise (ValueError
                      (head_size_msg head_size
                         [32; 64; 96; 128; 160; 192; 224; 256])))
  \/ (blocksparse_params = None /\ sliding_window = None
      /\ In head_size [32; 64; 96; 128; 160; 192; 224; 256]
      /\ exists self, r = Return self).
Proof.
  intros Hmod r. subst r.
  destruct blocksparse_params as [bs|].
  - left. split; [discriminate | reflexivity].
  - right. rewrite (init_exact_division _ Hmod).
    destruct sliding_window as [w|].
    + left. repeat split. discriminate.
    + right.
      destruct (existsb (Z.eqb head_size) _) eqn:E.
      * right. apply supported_head_size_iff in E.
        repeat split; [exact E | eexists; reflexivity].
      * left. repeat split.
        intros Hin. apply supported_head_size_iff in Hin. congruence.
Qed.

(** C5, amended: with no block-sparse parameter, no sliding window and
    [num_heads % num_kv_heads == 0], [__init__] raises the head-size
    [ValueError] if and only if the head size is not one of 32, 64, 96, 128,
    160, 192, 224, 256 (and returns the implementation otherwise); the
    message of that error contains the head size and the supported list. *)
Theorem init_head_size_error_iff :
  py_mod num_heads num_kv_heads = Return 0 ->
  let r := __init__ kernel num_heads head_size scale num_kv_heads
             alibi_slopes None None logits_soft_cap in
  let msg := head_size_msg head_size [32; 64; 96; 128; 160; 192; 224; 256] in
  (r = Raise (ValueError msg)
   <-> ~ In head_size [32; 64; 96; 128; 160; 192; 224; 256])
  /\ ((exists e, r = Raise e)
      <-> ~ In head_size [32; 64; 96; 128; 160; 192; 224; 256])
  /\ contains (str_int head_size) msg = true
  /\ contains (str_int_list [32; 64; 96; 128; 160; 192; 224; 256]) msg = true.
Proof.
  intros Hmod r msg. subst r msg.
  rewrite (init_exact_division None Hmod).
  pose proof (supported_head_size_iff head_size) as Hiff.
  change EncodeOnlyFlashAttentionBackend.get_supported_head_sizes
    with [32; 64; 96; 128; 160; 192; 224; 256] in *.
  repeat split.
  - destruct (existsb _ _); [discriminate|].
    intros _ Hin. apply Hiff in Hin. discriminate.
  - intros Hnot. destruct (existsb _ _); [|reflexivity].
    exfalso. apply Hnot, Hiff. reflexivity.
  - destruct (existsb _ _); [intros [e [=]]|].
    intros _ Hin. apply Hiff in Hin. discriminate.
  - intros Hnot. destruct (existsb _ _); [|eexists; reflexivity].
    exfalso. apply Hnot, Hiff. reflexivity.
  - unfold head_size_msg. apply (contains_app _ "Head size ").
  - unfold head_size_msg.
    apply (contains_skip _ "Head size ").
    apply (contains_skip _ (str_int head_size)).
    apply (contains_skip _ " is not supported by FlashAttention. ").
    apply (contains_app _ "Supported head sizes are: ").
Qed.

(** C8: when [__init__] returns an implementation, its soft cap is 0 if
    [logits_soft_cap] was [None] and the given value otherwise, and its
    window is the pair (-1, -1), [sliding_window] having been [None] (the
    only case in which [__init__] returns).  These are the [softcap] and the
    [window_size] of the call [forward] makes to the kernel. *)
Theorem init_normalizes (sliding_window : option Z)
    (blocksparse_params : option (list (string * Any)))
    (self : EncodeOnlyFlashAttentionImpl) :
  __init__ kernel num_heads head_size scale num_kv_heads alibi_slopes
    sliding_window blocksparse_params logits_soft_cap = Return self ->
  (logits_soft_cap = None -> FlashAttn.logits_soft_cap self = PyInt 0)
  /\ (forall c, logits_soft_cap = Some c ->
        FlashAttn.logits_soft_cap self = PyFloat c)
  /\ (sliding_window = None /\ FlashAttn.sliding_window self = (-1, -1))
  /\ (forall query key value attn_metadata num_tokens hidden_size q' k' v',
        shape query = [num_tokens; hidden_size] ->
        view query [-1; num_heads; head_size] = Return q' ->
        view key [-1; num_kv_heads; head_size] = Return k' ->
        view value [-1; num_kv_heads; head_size] = Return v' ->
        exists call,
          forward self query key value attn_metadata 1%float 1%float ENCODER
          = (attn_output <- kernel call ;;
             view attn_output [num_tokens; hidden_size])
          /\ softcap call = FlashAttn.logits_soft_cap self
          /\ window_size call = (-1, -1)).
Proof.
  unfold __init__. intros H.
  destruct blocksparse_params; [discriminate|].
  destruct (py_mod num_heads num_kv_heads) as [r|]; [|discriminate].
  cbn [bind] in H.
  destruct (py_assert (r =? 0)%Z ""); [|discriminate].
  cbn [bind] in H.
  destruct (py_floordiv num_heads num_kv_heads); [|discriminate].
  cbn [bind] in H.
  destruct sliding_window; [discriminate|].
  destruct (negb _); [discriminate|].
  injection H as <-.
  split; [now intros -> | split; [now intros c -> | split]].
  - split; reflexivity.
  - intros query key value md n h q' k' v' Hshape Hq Hk Hv.
    match goal with
    | |- exists call, forward ?s _ _ _ _ _ _ _ = _ /\ _ =>
        exists (varlen_call s q' k' v' md)
    end.
    split; [|split; reflexivity].
    rewrite (forward_calls_kernel _ query key value md _ _ n h q' k' v');
      try reflexivity; assumption.
Qed.

End Construction.

(** Eight heads of size 64 over eight key/value heads: the constructor
    returns. *)
Lemma init_succeeds_or_named_error_witness :
  py_mod 8 8 = Return 0
  /\ exists self,
       __init__ (T := ShapeTorch) shape_kernel 8 64 0.125%float 8
         None None None None = Return self.
Proof.
  split; [reflexivity|].
  destruct (init_succeeds_or_named_error (T := ShapeTorch) shape_kernel
              8 64 0.125%float 8 None None None None eq_refl)
    as [[H _] | [(_ & H & _) | [(_ & _ & H & _) | (_ & _ & _ & H)]]].
  - exfalso. apply H. reflexivity.
  - exfalso. apply H. reflexivity.
  - exfalso. apply H. simpl. right. left. reflexivity.
  - exact H.
Defined.

(** C5, as stated, fails: with no block-sparse parameter and no sliding
    window, three heads over two key/value heads and head size 48, the
    constructor stops at its [assert] on the head counts, before the head
    size is looked at; the error is not the head-size error although 48 is
    not supported. *)
Lemma init_head_size_counterexample :
  let r := __init__ (T := ShapeTorch) shape_kernel 3 48 0.125%float 2
             None None None None in
  ~ In 48 [32; 64; 96; 128; 160; 192; 224; 256]
  /\ r = Raise (AssertionError "")
  /\ r <> Raise (ValueError
                   (head_size_msg 48 [32; 64; 96; 128; 160; 192; 224; 256])).
Proof.
  split; [|split].
  - simpl. intros H.
    repeat (destruct H as [H | H]; [discriminate|]). exact H.
  - reflexivity.
  - discriminate.
Qed.

(** Head size 48 is rejected, and the message names 48 and the list. *)
Lemma init_head_size_error_iff_witness :
  py_mod 8 8 = Return 0
  /\ __init__ (T := ShapeTorch) shape_kernel 8 48 0.125%float 8
       None None None None
     = Raise (ValueError
         "Head size 48 is not supported by FlashAttention. Supported head sizes are: [32, 64, 96, 128, 160, 192, 224, 256].")
  /\ contains "48" (head_size_msg 48 [32; 64; 96; 128; 160; 192; 224; 256])
     = true.
Proof.
  destruct (init_head_size_error_iff (T := ShapeTorch) shape_kernel
              8 48 0.125%float 8 None None eq_refl)
    as (Hiff & _ & Hsize & _).
  split; [reflexivity | split].
  - apply Hiff. simpl. intros H.
    repeat (destruct H as [H | H]; [discriminate|]). exact H.
  - exact Hsize.
Defined.

Lemma init_shape_impl :
  __init__ (T := ShapeTorch) shape_kernel 4 64 0.125%float 4
    None None None None = Return shape_impl.
Proof. reflexivity. Qed.

(** With no soft cap given, the implementation holds the soft cap 0 and
    the window (-1, -1), and a forward call passes them to the kernel. *)
Lemma init_normalizes_witness :
  FlashAttn.logits_soft_cap shape_impl = PyInt 0
  /\ FlashAttn.sliding_window shape_impl = (-1, -1)
  /\ exists call,
       forward shape_impl [10; 256] [10; 256] [10; 256] shape_metadata
         1%float 1%float ENCODER
       = (attn_output <- shape_kernel call ;; view attn_output [10; 256])
       /\ softcap call = PyInt 0
       /\ window_size call = (-1, -1).
Proof.
  destruct (init_normalizes (T := ShapeTorch) shape_kernel
              4 64 0.125%float 4 None None None None shape_impl eq_refl)
    as (Hcap & _ & [_ Hwin] & Hcall).
  split; [exact (Hcap eq_refl) | split; [exact Hwin|]].
  destruct (Hcall [10; 256] [10; 256] [10; 256] shape_metadata 10 256
              [10; 4; 64] [10; 4; 64] [10; 4; 64]
              eq_refl eq_refl eq_refl eq_refl) as (call & Hfwd & Hc & Hw).
  exists call. split; [exact Hfwd | split; [|exact Hw]].
  rewrite Hc. exact (Hcap eq_refl).
Defined.

(** ** The forward pass *)

Section Forward.

Context {T : Torch}.

Variable self : EncodeOnlyFlashAttentionImpl.
Variables query key value : Tensor.
Variable attn_metadata : EncodeOnlyFlashAttentionMetadata.

(** C6: [forward] with an attention type other than [ENCODER] raises
    [NotImplementedError], whatever the tensors, the metadata and the two
    scales are. *)
Theorem forward_rejects_other_modes (k_scale v_scale : float)
    (attn_type : AttentionType) :
  attn_type <> ENCODER ->
  forward self query key value attn_metadata k_scale v_scale attn_type
  = Raise (NotImplementedError not_implemented_msg).
Proof.
  intros Hmode. unfold forward.
  destruct attn_type; [contradiction | reflexivity | reflexivity].
Qed.

(** C7: in [ENCODER] mode, [forward] raises an [AssertionError] as soon as
    [k_scale] or [v_scale] is not equal to 1.0; when both are equal to 1.0
    the assertion passes and [forward] goes on to reshape the tensors and
    call the kernel: on tensors the reshapes accept, its result is the
    kernel's output for [varlen_call], reshaped back. *)
Theorem forward_scale_check (k_scale v_scale : float) :
  (PrimFloat.eqb k_scale 1%float = false
   \/ PrimFloat.eqb v_scale 1%float = false ->
   forward self query key value attn_metadata k_scale v_scale ENCODER
   = Raise (AssertionError scale_msg))
  /\ (PrimFloat.eqb k_scale 1%float = true ->
      PrimFloat.eqb v_scale 1%float = true ->
      forward self query key value attn_metadata k_scale v_scale ENCODER
      = run_kernel self query key value attn_metadata
      /\ forall num_tokens hidden_size q' k' v',
           shape query = [num_tokens; hidden_size] ->
           view query [-1; num_heads self; head_size self] = Return q' ->
           view key [-1; num_kv_heads self; head_size self] = Return k' ->
           view value [-1; num_kv_heads self; head_size self] = Return v' ->
           forward self query key value attn_metadata k_scale v_scale ENCODER
           = (attn_output <- flash_attn_varlen_func self
                               (varlen_call self q' k' v' attn_metadata) ;;
              view attn_output [num_tokens; hidden_size])).
Proof.
  unfold forward. cbn [AttentionType_eqb negb].
  split.
  - intros [H | H]; rewrite H; [|rewrite andb_false_r]; reflexivity.
  - intros Hk Hv. split.
    + rewrite Hk, Hv. reflexivity.
    + intros n h q' k' v' Hshape Hq Hkey Hval.
      fold (AttentionType_eqb ENCODER ENCODER).
      now apply forward_calls_kernel.
Qed.

End Forward.

(** A decoder self-attention call is rejected. *)
Lemma forward_rejects_other_modes_witness :
  forward shape_impl [10; 256] [10; 256] [10; 256]
    shape_metadata 1%float 1%float DECODER_SELF
  = Raise (NotImplementedError
      "Decoder self-attention and encoder/decoder cross-attention are not implemented for EncodeOnlyFlashAttentionImpl").
Proof.
  apply (forward_rejects_other_modes (T := ShapeTorch) shape_impl
           [10; 256] [10; 256] [10; 256] shape_metadata
           1%float 1%float DECODER_SELF).
  discriminate.
Defined.

(** A value scale of 0.5 is rejected; with both scales 1.0 a batch of ten
    tokens goes through the kernel and comes back with the query's shape. *)
Lemma forward_scale_check_witness :
  forward shape_impl [10; 256] [10; 256] [10; 256]
    shape_metadata 1%float 0.5%float ENCODER
  = Raise (AssertionError "key/v_scale is not supported in FlashAttention.")
  /\ forward shape_impl [10; 256] [10; 256] [10; 256]
       shape_metadata 1%float 1%float ENCODER
     = Return [10; 256].
Proof.
  split.
  - apply (proj1 (forward_scale_check (T := ShapeTorch) shape_impl
                    [10; 256] [10; 256] [10; 256]
                    shape_metadata 1%float 0.5%float)).
    right. reflexivity.
  - destruct (proj2 (forward_scale_check (T := ShapeTorch) shape_impl
                       [10; 256] [10; 256] [10; 256]
                       shape_metadata 1%float 1%float)
                eq_refl eq_refl) as [_ Hrun].
    rewrite (Hrun 10 256 [10; 4; 64] [10; 4; 64] [10; 4; 64]
               eq_refl eq_refl eq_refl eq_refl).
    reflexivity.
Defined.

(** ** The metadata builder *)

Import MetadataBuilder.

Lemma offsets_from_length (acc : Z) (seq_lens : list Z) :
  List.length (offsets_from acc seq_lens) = S (List.length seq_lens).
Proof.
  revert acc. induction seq_lens as [|n rest IH]; intros acc; simpl.
  - reflexivity.
  - now rewrite IH.
Qed.

Lemma offsets_from_nth (seq_lens : list Z) :
  forall (acc : Z) (i : nat),
    (i <= List.length seq_lens)%nat ->
    nth i (offsets_from acc seq_lens) 0 = acc + total (firstn i seq_lens).
Proof.
  induction seq_lens as [|n rest IH]; intros acc i Hi; simpl in Hi.
  - assert (i = 0%nat) as -> by lia. simpl. lia.
  - destruct i as [|i]; simpl.
    + lia.
    + rewrite IH by lia. unfold total. lia.
Qed.

Lemma fold_max_init (l : list Z) : forall n, n <= fold_left Z.max l n.
Proof.
  induction l as [|x l IH]; intros n; simpl.
  - lia.
  - specialize (IH (Z.max n x)). lia.
Qed.

Lemma fold_max_upper (l : list Z) :
  forall n x, In x l -> x <= fold_left Z.max l n.
Proof.
  induction l as [|y l IH]; intros n x Hin; simpl in *.
  - contradiction.
  - destruct Hin as [-> | Hin].
    + pose proof (fold_max_init l (Z.max n x)). lia.
    + now apply IH.
Qed.

Lemma fold_max_attained (l : list Z) :
  forall n, fold_left Z.max l n = n \/ In (fold_left Z.max l n) l.
Proof.
  induction l as [|y l IH]; intros n; simpl.
  - now left.
  - destruct (IH (Z.max n y)) as [H | H].
    + rewrite H. destruct (Z.max_spec n y) as [[_ E] | [_ E]]; rewrite E.
      * right. now left.
      * now left.
    + right. now right.
Qed.

(** C9: [build] returns the start offsets of the packed sequences, one more
    than there are sequences, the [i]-th being the sum of the first [i]
    lengths (so the first is 0 and the last the total), and as [max_seq_len]
    the largest of the lengths, 0 when there is none.  For the lengths 3, 5, 2
    the offsets are 0, 3, 8, 10 and the maximum is 5; for no sequence the
    offsets are 0 alone and the maximum is 0. *)
Theorem build_offsets_and_max (seq_lens : list Z) :
  let md := build seq_lens in
  List.length (seq_start_loc md) = S (List.length seq_lens)
  /\ (forall i : nat,
        (i <= List.length seq_lens)%nat ->
        nth i (seq_start_loc md) 0 = total (firstn i seq_lens))
  /\ (seq_lens = [] -> max_seq_len md = 0)
  /\ (seq_lens <> [] -> In (max_seq_len md) seq_lens)
  /\ (forall n : Z, In n seq_lens -> n <= max_seq_len md)
  /\ build [3; 5; 2] = {| seq_start_loc := [0; 3; 8; 10]; max_seq_len := 5 |}
  /\ build [] = {| seq_start_loc := [0]; max_seq_len := 0 |}.
Proof.
  cbn [build seq_start_loc max_seq_len].
  split; [apply offsets_from_length|].
  split; [intros i Hi; now rewrite offsets_from_nth|].
  split; [now intros ->|].
  split; [|split; [|split; reflexivity]].
  - destruct seq_lens as [|n rest]; [congruence|]. intros _.
    cbn [max_of]. destruct (fold_max_attained rest n) as [H | H].
    + rewrite H. now left.
    + now right.
  - destruct seq_lens as [|m rest]; [contradiction|].
    intros n [<- | Hin]; cbn [max_of].
    + apply fold_max_init.
    + now apply fold_max_upper.
Qed.

(** The third offset of the batch 3, 5, 2 is 3 + 5, and its maximum is one
    of the lengths. *)
Lemma build_offsets_and_max_witness :
  nth 2 (seq_start_loc (build [3; 5; 2])) 0 = 8
  /\ In (max_seq_len (build [3; 5; 2])) [3; 5; 2]
  /\ 5 <= max_seq_len (build [3; 5; 2]).
Proof.
  destruct (build_offsets_and_max [3; 5; 2])
    as (_ & Hnth & _ & Hin & Hub & _).
  split; [|split].
  - rewrite (Hnth 2%nat); [reflexivity | simpl; lia].
  - apply Hin. discriminate.
  - apply Hub. simpl. right. left. reflexivity.
Defined.

(** * Further properties of the selector *)

(** Parsing a backend name is the exact inverse of [name]: a string is
    accepted, and mapped to [b], if and only if it is the name of [b]. *)
Theorem backend_name_to_enum_returns_iff (s : string) (b : _Backend) :
  backend_name_to_enum s = Return b <-> s = name b.
Proof.
  unfold backend_name_to_enum. split.
  - destruct (lookup s __members__) as [b'|] eqn:L; [|discriminate].
    intros [= <-]. now apply lookup_some_name.
  - intros ->. now rewrite lookup_name.
Qed.

Lemma lookup_none_not_a_name (s : string) :
  lookup s __members__ = None -> forall b, s <> name b.
Proof.
  intros L b ->. rewrite lookup_name in L. discriminate.
Qed.

(** The rejected string itself appears in the error message. *)
Lemma invalid_backend_msg_quotes (s : string) :
  contains s (invalid_backend_msg s) = true.
Proof.
  unfold invalid_backend_msg.
  apply (contains_app s "Invalid attention backend '").
Qed.

(** The three checks leave [FLASH_ATTN] when all pass and [XFORMERS] when
    one fails. *)
Lemma flash_attn_or_xformers_cases (env : Env) (sw : option Z) (dt : dtype) :
  (8 <= fst (get_device_capability env)
   /\ (dt = float16 \/ dt = bfloat16) /\ sw = None
   /\ flash_attn_or_xformers env sw dt = FLASH_ATTN)
  \/ ((fst (get_device_capability env) < 8
       \/ (dt <> float16 /\ dt <> bfloat16) \/ sw <> None)
      /\ flash_attn_or_xformers env sw dt = XFORMERS).
Proof.
  destruct (flash_attn_or_xformers_spec env sw dt) as [Hyes Hno].
  destruct (Z.ltb_spec (fst (get_device_capability env)) 8) as [Hlt | Hge].
  - right. split; [now left | apply Hno; now left].
  - destruct (existsb (dtype_eqb dt) [float16; bfloat16]) eqn:Hdt.
    + apply dtype_in_half in Hdt. destruct sw as [w|].
      * right. assert (Some w <> None) by discriminate.
        split; [now right; right | apply Hno; now right; right].
      * left. repeat split; try assumption. apply Hyes. now repeat split.
    + assert (dt <> float16 /\ dt <> bfloat16) as Hd.
      { split; intros ->; discriminate. }
      right. split; [now right; left | apply Hno; now right; left].
Qed.

(** [which_attn_to_use], by the override and how it parses. *)
Lemma which_attn_to_use_cases (env : Env) (nh hs nkv : Z) (sw : option Z)
    (dt : dtype) :
  which_attn_to_use env nh hs nkv sw dt
  = match VLLM_ATTENTION_BACKEND env with
    | None => Return (flash_attn_or_xformers env sw dt)
    | Some s =>
      match lookup s __members__ with
      | Some b => Return (if _Backend_eqb b FLASH_ATTN
                          then flash_attn_or_xformers env sw dt else b)
      | None => Raise (ValueError (invalid_backend_msg s))
      end
    end.
Proof.
  destruct (VLLM_ATTENTION_BACKEND env) as [s|] eqn:Henv.
  - destruct (lookup s __members__) as [b|] eqn:L.
    + apply (which_attn_to_use_override _ _ _ _ _ _ s b Henv).
      unfold backend_name_to_enum. now rewrite L.
    + unfold which_attn_to_use, backend_name_to_enum.
      rewrite Henv, L. reflexivity.
  - now apply which_attn_to_use_no_override.
Qed.

Lemma which_attn_to_use_raise_inv (env : Env) (nh hs nkv : Z)
    (sw : option Z) (dt : dtype) (e : exn) :
  which_attn_to_use env nh hs nkv sw dt = Raise e
  <-> exists s, VLLM_ATTENTION_BACKEND env = Some s
                /\ (forall b, s <> name b)
                /\ e = ValueError (invalid_backend_msg s).
Proof.
  rewrite which_attn_to_use_cases.
  destruct (VLLM_ATTENTION_BACKEND env) as [s|].
  - destruct (lookup s __members__) as [b|] eqn:L.
    + split; [discriminate|].
      intros (s' & [= <-] & Hs & _). apply lookup_some_name in L.
      now apply Hs in L.
    + split.
      * intros [= <-]. exists s.
        split; [reflexivity | split; [|reflexivity]].
        now apply lookup_none_not_a_name.
      * intros (s' & [= <-] & _ & ->). reflexivity.
  - split; [discriminate|]. intros (s' & [=] & _).
Qed.

(** The selector raises exactly when an override is present and is not the
    name of a backend; the exception is then the [ValueError] of
    [backend_name_to_enum], whose message repeats the rejected string.  With
    no override, or a valid one, it returns a backend. *)
Theorem which_attn_to_use_raises_iff (env : Env)
    (num_heads head_size num_kv_heads : Z) (sliding_window : option Z)
    (dt : dtype) (e : exn) :
  (which_attn_to_use env num_heads head_size num_kv_heads sliding_window dt
   = Raise e
   <-> exists s, VLLM_ATTENTION_BACKEND env = Some s
                 /\ (forall b, s <> name b)
                 /\ e = ValueError (invalid_backend_msg s))
  /\ forall s, contains s (invalid_backend_msg s) = true.
Proof.
  split.
  - apply which_attn_to_use_raise_inv.
  - apply invalid_backend_msg_quotes.
Qed.

(** [FLASH_ATTN] is selected exactly when the override is absent or is
    "FLASH_ATTN", the major compute capability is at least 8, the dtype is
    [float16] or [bfloat16] and there is no sliding window. *)
Lemma which_attn_to_use_flash_attn_iff (env : Env)
    (num_heads head_size num_kv_heads : Z) (sliding_window : option Z)
    (dt : dtype) :
  which_attn_to_use env num_heads head_size num_kv_heads sliding_window dt
  = Return FLASH_ATTN
  <-> (VLLM_ATTENTION_BACKEND env = None
       \/ VLLM_ATTENTION_BACKEND env = Some "FLASH_ATTN")
      /\ 8 <= fst (get_device_capability env)
      /\ (dt = float16 \/ dt = bfloat16)
      /\ sliding_window = None.
Proof.
  rewrite which_attn_to_use_cases.
  destruct (flash_attn_or_xformers_cases env sliding_window dt)
    as [(Hc & Hd & Hs & ->) | [Hno ->]].
  - destruct (VLLM_ATTENTION_BACKEND env) as [s|].
    + destruct (lookup s __members__) as [b|] eqn:L.
      * apply lookup_some_name in L. subst s.
        destruct b; simpl; split;
          try discriminate;
          try (intros ([[=] | [=]] & _));
          try (intros _; split; [now right | now repeat split]);
          try reflexivity.
      * split; [discriminate|].
        intros ([[=] | [= ->]] & _). discriminate.
    + split; [|reflexivity]. intros _. split; [now left | now repeat split].
  - assert (~ (8 <= fst (get_device_capability env)
               /\ (dt = float16 \/ dt = bfloat16) /\ sliding_window = None))
      as Hneg.
    { intros (Hc & Hd & Hs).
      destruct Hno as [H | [[H1 H2] | H]];
        [lia | destruct Hd; contradiction | contradiction]. }
    destruct (VLLM_ATTENTION_BACKEND env) as [s|].
    + destruct (lookup s __members__) as [b|] eqn:L.
      * apply lookup_some_name in L. subst s.
        destruct b; simpl;
          (split; [discriminate | intros (_ & H); now apply Hneg in H]).
      * split; [discriminate|]. intros (_ & H). now apply Hneg in H.
    + split; [discriminate|]. intros (_ & H). now apply Hneg in H.
Qed.

(** [XFORMERS] is selected exactly when it is the override, or when a
    [FLASH_ATTN] candidate (no override, or the override "FLASH_ATTN") fails
    one of the three checks. *)
Lemma which_attn_to_use_xformers_iff (env : Env)
    (num_heads head_size num_kv_heads : Z) (sliding_window : option Z)
    (dt : dtype) :
  which_attn_to_use env num_heads head_size num_kv_heads sliding_window dt
  = Return XFORMERS
  <-> VLLM_ATTENTION_BACKEND env = Some "XFORMERS"
      \/ ((VLLM_ATTENTION_BACKEND env = None
           \/ VLLM_ATTENTION_BACKEND env = Some "FLASH_ATTN")
          /\ (fst (get_device_capability env) < 8
              \/ (dt <> float16 /\ dt <> bfloat16)
              \/ sliding_window <> None)).
Proof.
  rewrite which_attn_to_use_cases.
  destruct (flash_attn_or_xformers_cases env sliding_window dt)
    as [(Hc & Hd & Hs & ->) | [Hno ->]].
  - assert (~ (fst (get_device_capability env) < 8
               \/ (dt <> float16 /\ dt <> bfloat16)
               \/ sliding_window <> None)) as Hpos.
    { intros [H | [[H1 H2] | H]];
        [lia | destruct Hd; contradiction | contradiction]. }
    destruct (VLLM_ATTENTION_BACKEND env) as [s|].
    + destruct (lookup s __members__) as [b|] eqn:L.
      * apply lookup_some_name in L. subst s.
        destruct b; simpl;
          (split;
           [ intros H; try discriminate H; now left
           | intros [H | (_ & Hn)];
             [ try discriminate H; reflexivity | now apply Hpos in Hn ] ]).
      * split; [discriminate|].
        intros [[= ->] | (_ & Hn)]; [discriminate | now apply Hpos in Hn].
    + split; [discriminate|].
      intros [[=] | (_ & Hn)]. now apply Hpos in Hn.
  - destruct (VLLM_ATTENTION_BACKEND env) as [s|].
    + destruct (lookup s __members__) as [b|] eqn:L.
      * apply lookup_some_name in L. subst s.
        destruct b; simpl;
          (split;
           [ intros H; try discriminate H;
             first [ now left | right; split; [now right | exact Hno] ]
           | intros [H | ([H | H] & _)]; try discriminate H; reflexivity ]).
      * split; [discriminate|].
        intros [[= ->] | ([[=] | [= ->]] & _)]; discriminate.
    + split; [|reflexivity]. intros _. right. split; [now left | exact Hno].
Qed.

(** A backend other than [FLASH_ATTN] and [XFORMERS] is selected exactly
    when the override names it. *)
Lemma which_attn_to_use_other_iff (env : Env)
    (num_heads head_size num_kv_heads : Z) (sliding_window : option Z)
    (dt : dtype) (b : _Backend) :
  b <> FLASH_ATTN -> b <> XFORMERS ->
  (which_attn_to_use env num_heads head_size num_kv_heads sliding_window dt
   = Return b
   <-> VLLM_ATTENTION_BACKEND env = Some (name b)).
Proof.
  intros Hf Hx. rewrite which_attn_to_use_cases.
  assert (flash_attn_or_xformers env sliding_window dt = FLASH_ATTN
          \/ flash_attn_or_xformers env sliding_window dt = XFORMERS) as Hr.
  { destruct (flash_attn_or_xformers_cases env sliding_window dt)
      as [(_ & _ & _ & H) | [_ H]]; [now left | now right]. }
  destruct (VLLM_ATTENTION_BACKEND env) as [s|].
  - destruct (lookup s __members__) as [b'|] eqn:L.
    + apply lookup_some_name in L. subst s.
      destruct Hr as [-> | ->];
        destruct b; try contradiction;
        destruct b'; simpl;
        (split; intros H; try discriminate H; reflexivity).
    + split; [discriminate|].
      intros [= ->]. rewrite lookup_name in L. discriminate.
  - split; [|discriminate].
    destruct Hr as [-> | ->]; intros [= <-]; contradiction.
Qed.

(** * Further properties of the dispatcher *)

(** [from_engine] returns what the dispatch chain returns on the selected
    backend. *)
Lemma from_engine_return_inv (env : Env) (cfg : ModelConfig)
    (x : option AttnBackendCls) :
  from_engine env cfg = Return x
  <-> exists b,
        which_attn_to_use env (get_num_attention_heads cfg)
          (get_head_size cfg) (get_num_kv_heads cfg)
          (get_sliding_window cfg) (model_dtype cfg) = Return b
        /\ from_engine_dispatch b = Return x.
Proof.
  unfold from_engine.
  destruct (which_attn_to_use _ _ _ _ _ _) as [b|e]; cbn [bind].
  - split.
    + intros H. now exists b.
    + now intros (b' & [= <-] & H).
  - split; [discriminate|]. now intros (b' & [=] & _).
Qed.

(** [from_engine] raises either what the selector raises or, on a selected
    backend without a branch of its own, the fixed [ValueError]. *)
Lemma from_engine_raise_inv (env : Env) (cfg : ModelConfig) (e : exn) :
  from_engine env cfg = Raise e
  <-> which_attn_to_use env (get_num_attention_heads cfg)
        (get_head_size cfg) (get_num_kv_heads cfg)
        (get_sliding_window cfg) (model_dtype cfg) = Raise e
      \/ exists b,
           which_attn_to_use env (get_num_attention_heads cfg)
             (get_head_size cfg) (get_num_kv_heads cfg)
             (get_sliding_window cfg) (model_dtype cfg) = Return b
           /\ b <> FLASH_ATTN /\ b <> XFORMERS /\ b <> TORCH_SDPA
           /\ e = ValueError "Invalid attention backend.".
Proof.
  unfold from_engine.
  destruct (which_attn_to_use _ _ _ _ _ _) as [b|e']; cbn [bind].
  - split.
    + intros H. right. exists b.
      destruct b; try discriminate H; injection H as <-;
        repeat split; discriminate.
    + intros [[=] | (b' & [= <-] & Hf & Hx & Ht & ->)].
      destruct b; try contradiction; reflexivity.
  - split.
    + intros [= ->]. now left.
    + intros [[= ->] | (b' & [=] & _)]. reflexivity.
Qed.

(** [from_engine] returns the FlashAttention backend class exactly when the
    override is absent or is "FLASH_ATTN", the major compute capability is
    at least 8, the model dtype is [float16] or [bfloat16], and the model has
    no sliding window. *)
Theorem from_engine_flash_attn_iff (env : Env) (cfg : ModelConfig) :
  from_engine env cfg = Return (Some EncodeOnlyFlashAttentionBackend)
  <-> (VLLM_ATTENTION_BACKEND env = None
       \/ VLLM_ATTENTION_BACKEND env = Some "FLASH_ATTN")
      /\ 8 <= fst (get_device_capability env)
      /\ (model_dtype cfg = float16 \/ model_dtype cfg = bfloat16)
      /\ get_sliding_window cfg = None.
Proof.
  rewrite from_engine_return_inv. split.
  - intros (b & Hsel & Hd).
    destruct b; try discriminate Hd.
    now apply which_attn_to_use_flash_attn_iff in Hsel.
  - intros H. exists FLASH_ATTN. split; [|reflexivity].
    now apply which_attn_to_use_flash_attn_iff.
Qed.

(** [from_engine] returns the Torch SDPA backend class exactly when the
    override is "TORCH_SDPA": that backend is never chosen without being
    asked for, and no check on the device, the dtype or the sliding window
    applies to it. *)
Theorem from_engine_torch_sdpa_iff (env : Env) (cfg : ModelConfig) :
  from_engine env cfg = Return (Some EncodeOnlyTorchSDPABackend)
  <-> VLLM_ATTENTION_BACKEND env = Some "TORCH_SDPA".
Proof.
  rewrite from_engine_return_inv. split.
  - intros (b & Hsel & Hd).
    destruct b; try discriminate Hd.
    apply which_attn_to_use_other_iff in Hsel; [exact Hsel | | ]; discriminate.
  - intros H. exists TORCH_SDPA. split; [|reflexivity].
    apply which_attn_to_use_other_iff; [discriminate | discriminate | exact H].
Qed.

(** [from_engine] returns [None], without raising, exactly when [XFORMERS]
    is selected: when it is the override, or when the [FLASH_ATTN] candidate
    fails the capability, dtype or sliding-window check. *)
Theorem from_engine_none_iff (env : Env) (cfg : ModelConfig) :
  from_engine env cfg = Return None
  <-> VLLM_ATTENTION_BACKEND env = Some "XFORMERS"
      \/ ((VLLM_ATTENTION_BACKEND env = None
           \/ VLLM_ATTENTION_BACKEND env = Some "FLASH_ATTN")
          /\ (fst (get_device_capability env) < 8
              \/ (model_dtype cfg <> float16 /\ model_dtype cfg <> bfloat16)
              \/ get_sliding_window cfg <> None)).
Proof.
  rewrite from_engine_return_inv. split.
  - intros (b & Hsel & Hd).
    destruct b; try discriminate Hd.
    now apply which_attn_to_use_xformers_iff in Hsel.
  - intros H. exists XFORMERS. split; [|reflexivity].
    now apply which_attn_to_use_xformers_iff.
Qed.

(** [from_engine] raises exactly when an override is present and is not
    "FLASH_ATTN", "XFORMERS" or "TORCH_SDPA".  If the override is not a
    backend name the exception is the [ValueError] of
    [backend_name_to_enum]; if it names one of the other five backends it is
    [ValueError("Invalid attention backend.")].  In particular, with no
    override [from_engine] never raises. *)
Theorem from_engine_raises_iff (env : Env) (cfg : ModelConfig) (e : exn) :
  from_engine env cfg = Raise e
  <-> exists s,
        VLLM_ATTENTION_BACKEND env = Some s
        /\ s <> "FLASH_ATTN" /\ s <> "XFORMERS" /\ s <> "TORCH_SDPA"
        /\ ((forall b, s <> name b)
            /\ e = ValueError (invalid_backend_msg s)
            \/ (exists b, s = name b)
               /\ e = ValueError "Invalid attention backend.").
Proof.
  rewrite from_engine_raise_inv, which_attn_to_use_raise_inv. split.
  - intros [(s & Henv & Hs & ->) | (b & Hsel & Hf & Hx & Ht & ->)].
    + exists s. split; [exact Henv|].
      split; [exact (Hs FLASH_ATTN)|].
      split; [exact (Hs XFORMERS)|].
      split; [exact (Hs TORCH_SDPA)|].
      left. now split.
    + apply which_attn_to_use_other_iff in Hsel; [|assumption|assumption].
      exists (name b). split; [exact Hsel|].
      destruct b; try contradiction;
        (repeat split; try discriminate; right; split;
         [eexists; reflexivity | reflexivity]).
  - intros (s & Henv & Hf & Hx & Ht & [[Hs ->] | [[b ->] ->]]).
    + left. exists s. now repeat split.
    + right. exists b.
      assert (b <> FLASH_ATTN) by (intros ->; now apply Hf).
      assert (b <> XFORMERS) by (intros ->; now apply Hx).
      assert (b <> TORCH_SDPA) by (intros ->; now apply Ht).
      repeat split; try assumption.
      now apply which_attn_to_use_other_iff.
Qed.

(** * Further properties of the constructor *)

(** The supported head sizes are the multiples of 32 from 32 to 256. *)
Lemma supported_head_sizes_multiples (hs : Z) :
  In hs EncodeOnlyFlashAttentionBackend.get_supported_head_sizes
  <-> 32 <= hs <= 256 /\ hs mod 32 = 0.
Proof.
  unfold EncodeOnlyFlashAttentionBackend.get_supported_head_sizes. split.
  - simpl. intros H.
    repeat (destruct H as [<- | H]; [split; [lia | reflexivity]|]).
    contradiction.
  - intros [Hrange Hmod].
    pose proof (Z.div_mod hs 32 ltac:(lia)) as Hdiv.
    rewrite Hmod, Z.add_0_r in Hdiv.
    assert (1 <= hs / 32 <= 8) as Hk by lia.
    assert (hs / 32 = 1 \/ hs / 32 = 2 \/ hs / 32 = 3 \/ hs / 32 = 4
            \/ hs / 32 = 5 \/ hs / 32 = 6 \/ hs / 32 = 7 \/ hs / 32 = 8)
      as Hcases by lia.
    rewrite Hdiv. simpl.
    repeat (destruct Hcases as [-> | Hcases]; [tauto|]).
    rewrite Hcases. tauto.
Qed.

Section ConstructionOrder.

Context {T : Torch}.

Variable kernel : VarlenCall -> result Tensor.
Variables (num_heads head_size : Z) (scale : float) (num_kv_heads : Z).
Variable alibi_slopes : option (list float).
Variable sliding_window : option Z.
Variable blocksparse_params : option (list (string * Any)).
Variable logits_soft_cap : option float.

(** [__init__] as the sequence of its checks. *)
Lemma init_cases :
  __init__ kernel num_heads head_size scale num_kv_heads alibi_slopes
    sliding_window blocksparse_params logits_soft_cap
  = match blocksparse_params with
    | Some _ => Raise (ValueError blocksparse_msg)
    | None =>
      if (num_kv_heads =? 0)%Z then
        Raise (ZeroDivisionError "integer modulo by zero")
      else if negb (num_heads mod num_kv_heads =? 0)%Z then
        Raise (AssertionError "")
      else match sliding_window with
           | Some _ => Raise (ValueError sliding_window_msg)
           | None =>
             if existsb (Z.eqb head_size)
                  EncodeOnlyFlashAttentionBackend.get_supported_head_sizes
             then Return
               {| flash_attn_varlen_func := kernel;
                  FlashAttn.num_heads := num_heads;
                  FlashAttn.head_size := head_size;
                  FlashAttn.scale := scale;
                  FlashAttn.num_kv_heads := num_kv_heads;
                  FlashAttn.alibi_slopes :=
                    option_map tensor_float32 alibi_slopes;
                  FlashAttn.sliding_window := (-1, -1);
                  FlashAttn.logits_soft_cap :=
                    match logits_soft_cap with
                    | None => PyInt 0
                    | Some c => PyFloat c
                    end;
                  num_queries_per_kv := num_heads / num_kv_heads |}
             else Raise
               (ValueError
                  (head_size_msg head_size
                     EncodeOnlyFlashAttentionBackend.get_supported_head_sizes))
           end
    end.
Proof.
  unfold __init__, py_mod, py_floordiv, py_assert.
  destruct blocksparse_params; [reflexivity|].
  destruct (num_kv_heads =? 0)%Z; [reflexivity|]. cbn [bind].
  destruct (num_heads mod num_kv_heads =? 0)%Z; [|reflexivity].
  cbn [bind negb]. destruct sliding_window; [reflexivity|].
  now destruct (existsb _ _).
Qed.

(** The checks of [__init__] come in a fixed order, and the first that
    fails decides the exception: a block-sparse parameter is rejected
    whatever the rest is; then zero key/value heads raise
    [ZeroDivisionError]; then head counts that do not divide raise
    [AssertionError]; then a sliding window is rejected, even with an
    unsupported head size. *)
Theorem init_check_order :
  let r := __init__ kernel num_heads head_size scale num_kv_heads
             alibi_slopes sliding_window blocksparse_params logits_soft_cap in
  (blocksparse_params <> None -> r = Raise (ValueError blocksparse_msg))
  /\ (blocksparse_params = None -> num_kv_heads = 0 ->
      exists msg, r = Raise (ZeroDivisionError msg))
  /\ (blocksparse_params = None -> num_kv_heads <> 0 ->
      num_heads mod num_kv_heads <> 0 ->
      r = Raise (AssertionError ""))
  /\ (blocksparse_params = None -> num_kv_heads <> 0 ->
      num_heads mod num_kv_heads = 0 -> sliding_window <> None ->
      r = Raise (ValueError sliding_window_msg)).
Proof.
  intros r. subst r. rewrite init_cases.
  split; [|split; [|split]].
  - destruct blocksparse_params; [reflexivity | contradiction].
  - intros -> ->. eexists. reflexivity.
  - intros -> Hnz Hmod.
    destruct (Z.eqb_spec num_kv_heads 0); [contradiction|].
    destruct (Z.eqb_spec (num_heads mod num_kv_heads) 0);
      [contradiction | reflexivity].
  - intros -> Hnz Hmod Hsw.
    destruct (Z.eqb_spec num_kv_heads 0); [contradiction|].
    rewrite Hmod. cbn [Z.eqb negb].
    destruct sliding_window; [reflexivity | contradiction].
Qed.

(** [__init__] returns an implementation exactly when there is no
    block-sparse parameter and no sliding window, the number of key/value
    heads is not zero and divides the number of heads, and the head size is
    a multiple of 32 between 32 and 256. *)
Theorem init_returns_iff :
  (exists self,
     __init__ kernel num_heads head_size scale num_kv_heads alibi_slopes
       sliding_window blocksparse_params logits_soft_cap = Return self)
  <-> blocksparse_params = None
      /\ sliding_window = None
      /\ num_kv_heads <> 0
      /\ num_heads mod num_kv_heads = 0
      /\ 32 <= head_size <= 256 /\ head_size mod 32 = 0.
Proof.
  rewrite init_cases.
  rewrite <- supported_head_sizes_multiples, <- supported_head_size_iff.
  destruct blocksparse_params.
  { split; [intros [self [=]] | intros ([=] & _)]. }
  destruct (Z.eqb_spec num_kv_heads 0) as [Hz | Hnz].
  { split; [intros [self [=]] | intros (_ & _ & H & _); contradiction]. }
  destruct (Z.eqb_spec (num_heads mod num_kv_heads) 0) as [Hm | Hm];
    cbn [negb].
  2: { split; [intros [self [=]] | intros (_ & _ & _ & H & _); contradiction]. }
  destruct sliding_window.
  { split; [intros [self [=]] | intros (_ & [=] & _)]. }
  destruct (existsb _ _).
  - split; [now repeat split | intros _; eexists; reflexivity].
  - split; [intros [self [=]] | intros (_ & _ & _ & _ & [=])].
Qed.

(** An implementation returned by [__init__] holds the arguments it was
    given and the kernel, its head size is a supported one, its number of
    key/value heads is not zero, and [num_queries_per_kv] is the exact
    quotient: multiplied by the number of key/value heads it gives back the
    number of heads. *)
Theorem init_invariants (self : EncodeOnlyFlashAttentionImpl) :
  __init__ kernel num_heads head_size scale num_kv_heads alibi_slopes
    sliding_window blocksparse_params logits_soft_cap = Return self ->
  FlashAttn.num_heads self = num_heads
  /\ FlashAttn.head_size self = head_size
  /\ FlashAttn.scale self = scale
  /\ FlashAttn.num_kv_heads self = num_kv_heads
  /\ flash_attn_varlen_func self = kernel
  /\ FlashAttn.alibi_slopes self = option_map tensor_float32 alibi_slopes
  /\ In (FlashAttn.head_size self)
       EncodeOnlyFlashAttentionBackend.get_supported_head_sizes
  /\ FlashAttn.num_kv_heads self <> 0
  /\ FlashAttn.num_heads self
     = num_queries_per_kv self * FlashAttn.num_kv_heads self.
Proof.
  rewrite init_cases.
  destruct blocksparse_params; [discriminate|].
  destruct (Z.eqb_spec num_kv_heads 0) as [Hz | Hnz]; [discriminate|].
  destruct (Z.eqb_spec (num_heads mod num_kv_heads) 0) as [Hm | Hm];
    [|discriminate].
  cbn [negb]. destruct sliding_window; [discriminate|].
  destruct (existsb _ _) eqn:Hhs; [|discriminate].
  intros [= <-]. cbn.
  repeat split; try assumption.
  - apply supported_head_size_iff in Hhs. exact Hhs.
  - pose proof (Z.div_mod num_heads num_kv_heads Hnz) as Hdiv.
    rewrite Hm in Hdiv. lia.
Qed.

End ConstructionOrder.

(** * Further properties of the forward pass *)

Section ForwardCalls.

Context {T : Torch}.

Variable self : EncodeOnlyFlashAttentionImpl.
Variables query key value : Tensor.
Variable attn_metadata : EncodeOnlyFlashAttentionMetadata.

(** [forward] returns a tensor exactly when the attention type is
    [ENCODER], both scales are equal to 1.0, the query has two dimensions,
    the three reshapes succeed, the kernel returns on the reshaped tensors,
    and its output can be reshaped to the shape of the query; the result is
    that reshaped output. *)
Theorem forward_returns_iff (k_scale v_scale : float)
    (attn_type : AttentionType) (out : Tensor) :
  forward self query key value attn_metadata k_scale v_scale attn_type
  = Return out
  <-> attn_type = ENCODER
      /\ PrimFloat.eqb k_scale 1%float = true
      /\ PrimFloat.eqb v_scale 1%float = true
      /\ exists num_tokens hidden_size q' k' v' attn_output,
           shape query = [num_tokens; hidden_size]
           /\ view query [-1; num_heads self; head_size self] = Return q'
           /\ view key [-1; num_kv_heads self; head_size self] = Return k'
           /\ view value [-1; num_kv_heads self; head_size self] = Return v'
           /\ flash_attn_varlen_func self
                (varlen_call self q' k' v' attn_metadata)
              = Return attn_output
           /\ view attn_output [num_tokens; hidden_size] = Return out.
Proof.
  split.
  - unfold forward.
    destruct attn_type; cbn [AttentionType_eqb negb]; try discriminate.
    destruct (PrimFloat.eqb k_scale 1%float); [|discriminate].
    destruct (PrimFloat.eqb v_scale 1%float); [|discriminate].
    cbn [andb py_assert bind]. unfold run_kernel.
    destruct (shape query) as [|n [|h [|x rest]]]; try discriminate.
    cbn [unpack2 bind].
    destruct (view query _) as [q'|] eqn:Hq; [|discriminate]. cbn [bind].
    destruct (view key _) as [k'|] eqn:Hk; [|discriminate]. cbn [bind].
    destruct (view value _) as [v'|] eqn:Hv; [|discriminate]. cbn [bind].
    destruct (flash_attn_varlen_func self _) as [o|] eqn:Ho; [|discriminate].
    cbn [bind]. intros Hout.
    repeat split. exists n, h, q', k', v', o. now repeat split.
  - intros (-> & Hks & Hvs & n & h & q' & k' & v' & o
            & Hshape & Hq & Hk & Hv & Ho & Hout).
    rewrite (forward_calls_kernel self query key value attn_metadata
               k_scale v_scale n h q' k' v' Hks Hvs Hshape Hq Hk Hv).
    rewrite Ho. exact Hout.
Qed.

(** Whenever [forward] reaches the kernel, the call is never causal, the
    query and the key use the same start offsets and the same maximum
    length, both taken from the metadata, and the softmax scale and the
    alibi slopes are those of the implementation. *)
Theorem forward_kernel_call (num_tokens hidden_size : Z)
    (q' k' v' : Tensor) :
  shape query = [num_tokens; hidden_size] ->
  view query [-1; num_heads self; head_size self] = Return q' ->
  view key [-1; num_kv_heads self; head_size self] = Return k' ->
  view value [-1; num_kv_heads self; head_size self] = Return v' ->
  exists call,
    forward self query key value attn_metadata 1%float 1%float ENCODER
    = (attn_output <- flash_attn_varlen_func self call ;;
       view attn_output [num_tokens; hidden_size])
    /\ causal call = false
    /\ (q call, k call, v call) = (q', k', v')
    /\ cu_seqlens_q call = seq_start_loc attn_metadata
    /\ cu_seqlens_k call = seq_start_loc attn_metadata
    /\ max_seqlen_q call = max_seq_len attn_metadata
    /\ max_seqlen_k call = max_seq_len attn_metadata
    /\ softmax_scale call = scale self
    /\ kernel_alibi_slopes call = alibi_slopes self.
Proof.
  intros Hshape Hq Hk Hv.
  exists (varlen_call self q' k' v' attn_metadata).
  split; [|now repeat split].
  now apply forward_calls_kernel.
Qed.

(** A query that does not have exactly two dimensions makes [forward]
    raise a [ValueError] at the unpacking of its shape, before any reshape
    and before the kernel. *)
Theorem forward_rejects_bad_rank :
  List.length (shape query) <> 2%nat ->
  exists msg,
    forward self query key value attn_metadata 1%float 1%float ENCODER
    = Raise (ValueError msg).
Proof.
  intros Hrank. unfold forward, run_kernel.
  cbn [AttentionType_eqb negb].
  change (PrimFloat.eqb 1 1) with true. cbn [andb py_assert bind].
  destruct (shape query) as [|n [|h [|x rest]]];
    cbn [unpack2 bind]; try (eexists; reflexivity).
  now contradiction Hrank.
Qed.

(** If reshaping to the shape of the query gives a tensor of that shape,
    then every tensor [forward] returns has the shape of the query. *)
Theorem forward_preserves_shape (k_scale v_scale : float)
    (attn_type : AttentionType) (out : Tensor) :
  (forall t t', view t (shape query) = Return t' -> shape t' = shape query) ->
  forward self query key value attn_metadata k_scale v_scale attn_type
  = Return out ->
  shape out = shape query.
Proof.
  intros Hview. unfold forward.
  destruct attn_type; cbn [AttentionType_eqb negb]; try discriminate.
  destruct (PrimFloat.eqb k_scale 1%float && PrimFloat.eqb v_scale 1%float);
    [|discriminate].
  cbn [py_assert bind]. unfold run_kernel.
  destruct (shape query) as [|n [|h [|x rest]]] eqn:Hshape;
    try discriminate.
  cbn [unpack2 bind].
  destruct (view query _); [|discriminate]. cbn [bind].
  destruct (view key _); [|discriminate]. cbn [bind].
  destruct (view value _); [|discriminate]. cbn [bind].
  destruct (flash_attn_varlen_func self _) as [o|]; [|discriminate].
  cbn [bind]. apply Hview.
Qed.

End ForwardCalls.

(** * The selector and the constructor together *)

(** When [from_engine] returns the FlashAttention backend class for a model,
    the constructor on that model's head counts, head size and sliding
    window never raises its sliding-window error: the selector has already
    turned a model with a sliding window away.  The constructor then returns
    exactly when the key/value heads are not zero and divide the heads and
    the head size is supported. *)
Theorem from_engine_flash_attn_then_init {T : Torch}
    (env : Env) (cfg : ModelConfig)
    (kernel : VarlenCall -> result Tensor) (scale : float)
    (alibi_slopes : option (list float)) (logits_soft_cap : option float) :
  from_engine env cfg = Return (Some EncodeOnlyFlashAttentionBackend) ->
  let r := __init__ kernel (get_num_attention_heads cfg) (get_head_size cfg)
             scale (get_num_kv_heads cfg) alibi_slopes
             (get_sliding_window cfg) None logits_soft_cap in
  r <> Raise (ValueError sliding_window_msg)
  /\ ((exists self, r = Return self)
      <-> get_num_kv_heads cfg <> 0
          /\ get_num_attention_heads cfg mod get_num_kv_heads cfg = 0
          /\ In (get_head_size cfg)
               EncodeOnlyFlashAttentionBackend.get_supported_head_sizes).
Proof.
  intros Hsel r. subst r.
  apply from_engine_return_inv in Hsel. destruct Hsel as (b & Hw & Hd).
  destruct b; try discriminate Hd.
  apply which_attn_to_use_flash_attn_iff in Hw.
  destruct Hw as (_ & _ & _ & Hsw).
  rewrite init_cases, Hsw.
  rewrite <- supported_head_size_iff.
  destruct (Z.eqb_spec (get_num_kv_heads cfg) 0) as [Hz | Hnz].
  { split; [discriminate|].
    split; [intros [self [=]] | intros (H & _); contradiction]. }
  destruct (Z.eqb_spec (get_num_attention_heads cfg mod get_num_kv_heads cfg)
              0) as [Hm | Hm]; cbn [negb].
  2: { split; [discriminate|].
       split; [intros [self [=]] | intros (_ & H & _); contradiction]. }
  destruct (existsb _ _).
  - split; [discriminate|].
    split; [now repeat split | intros _; eexists; reflexivity].
  - split; [discriminate|].
    split; [intros [self [=]] | intros (_ & _ & [=])].
Qed.

(** * The prefill-only workflow *)

Lemma scheduling_in_sync (s : string) :
  existsb (String.eqb s) ["sync"] = true <-> s = "sync".
Proof.
  simpl. rewrite orb_false_r. apply String.eqb_eq.
Qed.

Lemma scheduling_in_async (s : string) :
  existsb (String.eqb s) ["async"; "double_buffer"] = true
  <-> s = "async" \/ s = "double_buffer".
Proof.
  simpl. rewrite orb_false_r, orb_true_iff, !String.eqb_eq. reflexivity.
Qed.

(** [PrefillOnlyWorkflow.from_engine] completes the executor path by the
    scheduling mode: "sync" gives the class [GPUExecutor], "async" and
    "double_buffer" give [GPUAsyncExecutor], and any other mode is accepted
    without an error and leaves the bare module path.  So the executor path
    has the form module:Class exactly for the three known modes.  The seven
    other component paths never depend on the engine. *)
Theorem workflow_from_engine_executor (engine : PrefillOnlyWorkflow.Engine) :
  let s := PrefillOnlyWorkflow.scheduling engine in
  let w := PrefillOnlyWorkflow.from_engine engine in
  (s = "sync" ->
   PrefillOnlyWorkflow.Executor w
   = "vllm.wde.prefill_only.executor.gpu_executor:GPUExecutor")
  /\ (s = "async" \/ s = "double_buffer" ->
      PrefillOnlyWorkflow.Executor w
      = "vllm.wde.prefill_only.executor.gpu_executor:GPUAsyncExecutor")
  /\ (s <> "sync" -> s <> "async" -> s <> "double_buffer" ->
      PrefillOnlyWorkflow.Executor w
      = "vllm.wde.prefill_only.executor.gpu_executor")
  /\ (contains ":" (PrefillOnlyWorkflow.Executor w) = true
      <-> s = "sync" \/ s = "async" \/ s = "double_buffer")
  /\ (PrefillOnlyWorkflow.InputProcessor w,
      PrefillOnlyWorkflow.RequestProcessor w,
      PrefillOnlyWorkflow.OutputProcessor w,
      PrefillOnlyWorkflow.ModelInputBuilder w,
      PrefillOnlyWorkflow.Worker w,
      PrefillOnlyWorkflow.Scheduler w,
      PrefillOnlyWorkflow.AttnBackend w)
     = (PrefillOnlyWorkflow.InputProcessor PrefillOnlyWorkflow.cls,
        PrefillOnlyWorkflow.RequestProcessor PrefillOnlyWorkflow.cls,
        PrefillOnlyWorkflow.OutputProcessor PrefillOnlyWorkflow.cls,
        PrefillOnlyWorkflow.ModelInputBuilder PrefillOnlyWorkflow.cls,
        PrefillOnlyWorkflow.Worker PrefillOnlyWorkflow.cls,
        PrefillOnlyWorkflow.Scheduler PrefillOnlyWorkflow.cls,
        PrefillOnlyWorkflow.AttnBackend PrefillOnlyWorkflow.cls).
Proof.
  intros s w. subst s w. unfold PrefillOnlyWorkflow.from_engine.
  destruct (existsb _ ["sync"]) eqn:Hsync.
  - apply scheduling_in_sync in Hsync. rewrite Hsync.
    split; [reflexivity|].
    split; [intros [[=] | [=]]|].
    split; [intros H; contradiction|].
    split; [|reflexivity].
    split; [intros _; now left | reflexivity].
  - assert (PrefillOnlyWorkflow.scheduling engine <> "sync") as Hns.
    { intros H. apply scheduling_in_sync in H. congruence. }
    destruct (existsb _ ["async"; "double_buffer"]) eqn:Hasync.
    + apply scheduling_in_async in Hasync.
      split; [intros H; contradiction|].
      split; [reflexivity|].
      split; [intros _ Ha Hd; destruct Hasync; contradiction|].
      split; [|reflexivity].
      split; [intros _; now right | reflexivity].
    + assert (~ (PrefillOnlyWorkflow.scheduling engine = "async"
                 \/ PrefillOnlyWorkflow.scheduling engine = "double_buffer"))
        as Hna.
      { intros H. apply scheduling_in_async in H. congruence. }
      split; [intros H; contradiction|].
      split; [intros H; contradiction|].
      split; [reflexivity|].
      split; [|reflexivity].
      split; [discriminate|].
      intros [H | H]; [contradiction | now apply Hna in H].
Qed.

(** * Instances of the further properties *)

Lemma backend_name_to_enum_returns_iff_witness :
  backend_name_to_enum "PALLAS" = Return PALLAS
  /\ "pallas" <> name PALLAS.
Proof.
  split.
  - apply (proj2 (backend_name_to_enum_returns_iff "PALLAS" PALLAS)).
    reflexivity.
  - intros H.
    apply (proj2 (backend_name_to_enum_returns_iff "pallas" PALLAS)) in H.
    discriminate H.
Defined.

Lemma which_attn_to_use_raises_iff_witness :
  which_attn_to_use
    {| VLLM_ATTENTION_BACKEND := Some "xformers";
       get_device_capability := (8, 0) |}
    8 64 8 None float16
  = Raise (ValueError (invalid_backend_msg "xformers"))
  /\ contains "xformers" (invalid_backend_msg "xformers") = true.
Proof.
  destruct (which_attn_to_use_raises_iff
              {| VLLM_ATTENTION_BACKEND := Some "xformers";
                 get_device_capability := (8, 0) |}
              8 64 8 None float16
              (ValueError (invalid_backend_msg "xformers")))
    as [Hiff Hquote].
  split; [|exact (Hquote "xformers")].
  apply (proj2 Hiff). exists "xformers".
  split; [reflexivity | split; [|reflexivity]].
  intros b. destruct b; discriminate.
Defined.

Lemma from_engine_flash_attn_iff_witness :
  from_engine ampere roberta_half
  = Return (Some EncodeOnlyFlashAttentionBackend)
  /\ from_engine turing roberta_half
     <> Return (Some EncodeOnlyFlashAttentionBackend).
Proof.
  split.
  - apply (proj2 (from_engine_flash_attn_iff ampere roberta_half)).
    simpl. split; [now left | split; [lia | split; [now left | reflexivity]]].
  - intros H.
    apply (proj1 (from_engine_flash_attn_iff turing roberta_half)) in H.
    simpl in H. lia.
Defined.

Lemma from_engine_torch_sdpa_iff_witness :
  from_engine
    {| VLLM_ATTENTION_BACKEND := Some "TORCH_SDPA";
       get_device_capability := (7, 5) |}
    roberta_half
  = Return (Some EncodeOnlyTorchSDPABackend).
Proof.
  apply (proj2 (from_engine_torch_sdpa_iff
                  {| VLLM_ATTENTION_BACKEND := Some "TORCH_SDPA";
                     get_device_capability := (7, 5) |}
                  roberta_half)).
  reflexivity.
Defined.

Lemma from_engine_none_iff_witness :
  from_engine turing roberta_half = Return None.
Proof.
  apply (proj2 (from_engine_none_iff turing roberta_half)).
  right. simpl. split; [now left | left; lia].
Defined.

Lemma from_engine_raises_iff_witness :
  from_engine
    {| VLLM_ATTENTION_BACKEND := Some "IPEX";
       get_device_capability := (8, 0) |}
    roberta_half
  = Raise (ValueError "Invalid attention backend.").
Proof.
  apply (proj2 (from_engine_raises_iff
                  {| VLLM_ATTENTION_BACKEND := Some "IPEX";
                     get_device_capability := (8, 0) |}
                  roberta_half
                  (ValueError "Invalid attention backend."))).
  exists "IPEX". split; [reflexivity|].
  repeat (split; [discriminate|]).
  right. split; [exists IPEX; reflexivity | reflexivity].
Defined.

(** Three heads over two key/value heads with a sliding window and an
    unsupported head size: the head counts are reported. *)
Lemma init_check_order_witness :
  __init__ (T := ShapeTorch) shape_kernel 3 48 0.125%float 2
    None (Some 128) None None
  = Raise (AssertionError "")
  /\ __init__ (T := ShapeTorch) shape_kernel 4 48 0.125%float 2
       None (Some 128) None None
     = Raise (ValueError sliding_window_msg).
Proof.
  split.
  - apply (init_check_order (T := ShapeTorch) shape_kernel 3 48 0.125%float 2
             None (Some 128) None None);
      [reflexivity | discriminate | discriminate].
  - apply (init_check_order (T := ShapeTorch) shape_kernel 4 48 0.125%float 2
             None (Some 128) None None);
      [reflexivity | discriminate | reflexivity | discriminate].
Defined.

Lemma init_returns_iff_witness :
  exists self,
    __init__ (T := ShapeTorch) shape_kernel 12 64 0.125%float 4
      None None None None = Return self.
Proof.
  apply (proj2 (init_returns_iff (T := ShapeTorch) shape_kernel
                  12 64 0.125%float 4 None None None None)).
  split; [reflexivity | split; [reflexivity | split; [discriminate|]]].
  split; [reflexivity | split; [lia | reflexivity]].
Defined.

Lemma init_invariants_witness :
  num_heads shape_impl = num_queries_per_kv shape_impl * num_kv_heads shape_impl
  /\ In (head_size shape_impl)
       EncodeOnlyFlashAttentionBackend.get_supported_head_sizes.
Proof.
  destruct (init_invariants (T := ShapeTorch) shape_kernel
              4 64 0.125%float 4 None None None None shape_impl eq_refl)
    as (_ & _ & _ & _ & _ & _ & Hhs & _ & Hq).
  split; [exact Hq | exact Hhs].
Defined.

Lemma forward_returns_iff_witness :
  forward shape_impl [10; 256] [10; 256] [10; 256] shape_metadata
    1%float 1%float ENCODER = Return [10; 256].
Proof.
  apply (proj2 (forward_returns_iff (T := ShapeTorch) shape_impl
                  [10; 256] [10; 256] [10; 256] shape_metadata
                  1%float 1%float ENCODER [10; 256])).
  split; [reflexivity | split; [reflexivity | split; [reflexivity|]]].
  exists 10, 256, [10; 4; 64], [10; 4; 64], [10; 4; 64], [10; 4; 64].
  repeat split.
Defined.

Lemma forward_kernel_call_witness :
  exists call,
    forward shape_impl [10; 256] [10; 256] [10; 256] shape_metadata
      1%float 1%float ENCODER
    = (attn_output <- shape_kernel call ;; view attn_output [10; 256])
    /\ causal call = false
    /\ cu_seqlens_q call = [0; 3; 8; 10]
    /\ cu_seqlens_k call = [0; 3; 8; 10].
Proof.
  destruct (forward_kernel_call (T := ShapeTorch) shape_impl
              [10; 256] [10; 256] [10; 256] shape_metadata 10 256
              [10; 4; 64] [10; 4; 64] [10; 4; 64]
              eq_refl eq_refl eq_refl eq_refl)
    as (call & Hfwd & Hcausal & _ & Hq & Hk & _).
  exists call. split; [exact Hfwd | split; [exact Hcausal|]].
  split; [exact Hq | exact Hk].
Defined.

(** A one-dimensional query. *)
Lemma forward_rejects_bad_rank_witness :
  exists msg,
    forward shape_impl [2560] [10; 256] [10; 256] shape_metadata
      1%float 1%float ENCODER = Raise (ValueError msg).
Proof.
  apply (forward_rejects_bad_rank (T := ShapeTorch) shape_impl
           [2560] [10; 256] [10; 256] shape_metadata).
  cbv. discriminate.
Defined.

Lemma shape_view_query_shape (t t' : list Z) :
  shape_view t [10; 256] = Return t' -> t' = [10; 256].
Proof.
  unfold shape_view.
  change (existsb (Z.eqb (-1)) [10; 256]) with false. cbv iota.
  destruct (_ =? numel t)%Z; [|discriminate].
  now intros [= <-].
Qed.

Lemma forward_preserves_shape_witness :
  forward shape_impl [10; 256] [10; 256] [10; 256] shape_metadata
    1%float 1%float ENCODER = Return [10; 256]
  /\ @shape ShapeTorch [10; 256] = [10; 256].
Proof.
  split; [reflexivity|].
  apply (forward_preserves_shape (T := ShapeTorch) shape_impl
           [10; 256] [10; 256] [10; 256] shape_metadata
           1%float 1%float ENCODER [10; 256]
           shape_view_query_shape eq_refl).
Defined.

Lemma from_engine_flash_attn_then_init_witness :
  from_engine ampere roberta_half
  = Return (Some EncodeOnlyFlashAttentionBackend)
  /\ __init__ (T := ShapeTorch) shape_kernel 8 64 0.125%float 8
       None None None None
     <> Raise (ValueError sliding_window_msg).
Proof.
  split; [reflexivity|].
  apply (proj1 (from_engine_flash_attn_then_init (T := ShapeTorch)
                  ampere roberta_half shape_kernel 0.125%float None None
                  eq_refl)).
Defined.

Lemma workflow_from_engine_executor_witness :
  PrefillOnlyWorkflow.Executor
    (PrefillOnlyWorkflow.from_engine
       {| PrefillOnlyWorkflow.scheduling := "double_buffer" |})
  = "vllm.wde.prefill_only.executor.gpu_executor:GPUAsyncExecutor"
  /\ PrefillOnlyWorkflow.Executor
       (PrefillOnlyWorkflow.from_engine
          {| PrefillOnlyWorkflow.scheduling := "offline" |})
     = "vllm.wde.prefill_only.executor.gpu_executor".
Proof.
  split.
  - apply (workflow_from_engine_executor
             {| PrefillOnlyWorkflow.scheduling := "double_buffer" |}).
    now right.
  - apply (workflow_from_engine_executor
             {| PrefillOnlyWorkflow.scheduling := "offline" |});
      discriminate.
Defined.
